(** * amazon/ionbenchmark/benchmark_runner.py

    A shallow embedding of the benchmark runner of ion-python and the
    properties of its natural-language specification.

    The runner is plain imperative Python over process-wide state (the
    collector switch of [gc], the allocation tracer of [tracemalloc], the
    clock of [time], open files, [os.environ]).  That state is the record
    [World]; Python code is a function [World -> Outcome A * World] (the
    monad [M]), exceptions are the [Raise] outcome, [with] and
    [try/finally] are [try_finally].  The standard-library pieces the
    runner calls ([timeit.Timer], [tracemalloc], [tempfile.TemporaryFile],
    [open]) are embedded from CPython's own sources. *)

From Stdlib Require Import ZArith NArith QArith Qabs List String Ascii Bool Lia.
From Stdlib Require Import Strings.Byte.
Import ListNotations.
Local Open Scope Z_scope.

(** ** Python floats

    A Python [float] is an IEEE-754 binary64.  Its finite values are
    embedded as rationals and every arithmetic result is rounded by [fl]:
    to 53 significant bits, nearest, ties to even.  The exponent is not
    bounded, so [fl] agrees with binary64 wherever binary64 neither
    overflows nor underflows (magnitudes between 2^-1022 and 2^1024); the
    nanosecond timings and batch sizes of the runner are far inside. *)
Module Float.

Definition prec : Z := 53.

(** Nearest integer to [a / b] for [0 < b], ties to even. *)
Definition rne (a b : Z) : Z :=
  let q := a / b in
  let r := a mod b in
  match 2 * r ?= b with
  | Lt => q
  | Gt => q + 1
  | Eq => if Z.even q then q else q + 1
  end.

(** The binary exponent of [n / d]: the [e] with [2^e <= n/d < 2^(e+1)]. *)
Definition ilog2 (n d : Z) : Z :=
  let e0 := Z.log2 n - Z.log2 d in
  if d * 2 ^ Z.max 0 e0 <=? n * 2 ^ Z.max 0 (- e0) then e0 else e0 - 1.

(** Rounding of the positive rational [n / d]: scale it into
    [2^52, 2^53), round to an integer, scale back. *)
Definition fl_pos (n d : Z) : Q :=
  let s := prec - 1 - ilog2 n d in
  let A := 2 ^ Z.max 0 s in
  let B := 2 ^ Z.max 0 (- s) in
  Qred (Qmake (rne (n * A) (d * B) * B) (Z.to_pos A)).

Definition fl (q : Q) : Q :=
  match Qnum q with
  | Z0 => 0%Q
  | Zpos n => fl_pos (Zpos n) (Zpos (Qden q))
  | Zneg n => Qopp (fl_pos (Zpos n) (Zpos (Qden q)))
  end.

(** The unit roundoff of binary64, 2^-53. *)
Definition u : Q := Qmake 1 (2 ^ 53)%positive.

(** [float(i)] for a Python [int]. *)
Definition of_int (i : Z) : Q := fl (inject_Z i).

End Float.

(** ** Python values, exceptions and outcomes *)

Inductive PyObj : Type :=
| PyNone
| PyInt (i : Z)
| PyFloat (x : Q)
| PyStr (s : string)
| PyBytes (b : list byte).

Inductive PyExn : Type :=
| NotImplementedError (msg : string)
| ZeroDivisionError
| FileNotFoundError (path : string)
| Exception (msg : string).

(** What running a piece of Python gives: a value, a raised exception, or
    no answer within the fuel given to an unbounded [while True]. *)
Inductive Outcome (A : Type) : Type :=
| Ok (a : A)
| Raise (e : PyExn)
| OutOfFuel.
Arguments Ok {A} a.
Arguments Raise {A} e.
Arguments OutOfFuel {A}.

(** ** The process state *)

(** A file object; [name] is [None] for an anonymous temporary file, which
    exists exactly as long as it is open. *)
Record FileObj : Type := mkFile {
  fileno : nat;
  name : option string;
  mode : string
}.

Record World : Type := mkWorld {
  gc_enabled : bool;                  (* gc.isenabled() *)
  tracing : bool;                     (* tracemalloc.is_tracing() *)
  traced_current : N;                 (* tracemalloc's size_t counters *)
  traced_peak : N;
  clock_ns : Z;                       (* the monotonic performance counter *)
  environ : list (string * string);   (* os.environ *)
  files : list (string * list byte);  (* the file system: path, content *)
  next_fileno : nat;
  open_files : list FileObj
}.

Definition set_gc_enabled (b : bool) (w : World) : World :=
  mkWorld b (tracing w) (traced_current w) (traced_peak w) (clock_ns w)
          (environ w) (files w) (next_fileno w) (open_files w).

Definition set_traced (t : bool) (cur peak : N) (w : World) : World :=
  mkWorld (gc_enabled w) t cur peak (clock_ns w)
          (environ w) (files w) (next_fileno w) (open_files w).

Definition set_clock_ns (t : Z) (w : World) : World :=
  mkWorld (gc_enabled w) (tracing w) (traced_current w) (traced_peak w) t
          (environ w) (files w) (next_fileno w) (open_files w).

Definition set_open_files (n : nat) (l : list FileObj) (w : World) : World :=
  mkWorld (gc_enabled w) (tracing w) (traced_current w) (traced_peak w)
          (clock_ns w) (environ w) (files w) n l.

(** ** The monad of Python code: state and exceptions *)

Definition M (A : Type) : Type := World -> Outcome A * World.

Definition ret {A} (a : A) : M A := fun w => (Ok a, w).

Definition bind {A B} (c : M A) (k : A -> M B) : M B := fun w =>
  match c w with
  | (Ok a, w1) => k a w1
  | (Raise e, w1) => (Raise e, w1)
  | (OutOfFuel, w1) => (OutOfFuel, w1)
  end.

Definition raise {A} (e : PyExn) : M A := fun w => (Raise e, w).

Definition out_of_fuel {A} : M A := fun w => (OutOfFuel, w).

Declare Scope py_scope.
Delimit Scope py_scope with py.
Notation "x <- c1 ;; c2" := (bind c1 (fun x => c2))
  (at level 61, c1 at next level, right associativity) : py_scope.
Notation "c1 ;; c2" := (bind c1 (fun _ => c2))
  (at level 61, right associativity) : py_scope.
Local Open Scope py_scope.

(** [try: c finally: fin] (and the exit of a [with] block): [fin] runs
    whether [c] returns or raises; an exception of [fin] replaces the
    pending one. *)
Definition try_finally {A} (c : M A) (fin : M unit) : M A := fun w =>
  match c w with
  | (Ok a, w1) =>
      match fin w1 with
      | (Ok _, w2) => (Ok a, w2)
      | (Raise e, w2) => (Raise e, w2)
      | (OutOfFuel, w2) => (OutOfFuel, w2)
      end
  | (Raise e, w1) =>
      match fin w1 with
      | (Ok _, w2) => (Raise e, w2)
      | (Raise e', w2) => (Raise e', w2)
      | (OutOfFuel, w2) => (OutOfFuel, w2)
      end
  | (OutOfFuel, w1) => (OutOfFuel, w1)
  end.

(** [[f x for x in l]] with an [f] that may raise. *)
Fixpoint list_comprehension {A B} (f : A -> M B) (l : list A) : M (list B) :=
  match l with
  | [] => ret []
  | x :: l' => y <- f x ;; ys <- list_comprehension f l' ;; ret (y :: ys)
  end.

(** ** Arithmetic of the runner *)

(** [a / b] on two [int]s: the correctly rounded quotient, as a float. *)
Definition int_truediv (a b : Z) : M Q :=
  if b =? 0 then raise ZeroDivisionError
  else ret (Float.fl (inject_Z a / inject_Z b)).

(** [x / y] on two floats. *)
Definition float_truediv (x y : Q) : M Q :=
  if Qeq_bool y 0 then raise ZeroDivisionError
  else ret (Float.fl (x / y)).

Definition float_sub (x y : Q) : Q := Float.fl (x - y).

Definition float_mul (x y : Q) : Q := Float.fl (x * y).

Definition float_ge (x y : Q) : bool := Qle_bool y x.

(** ** [gc] *)
Module gc.
Definition isenabled : M bool := fun w => (Ok (gc_enabled w), w).
Definition enable : M unit := fun w => (Ok tt, set_gc_enabled true w).
Definition disable : M unit := fun w => (Ok tt, set_gc_enabled false w).
End gc.

(** ** [tracemalloc] (Modules/_tracemalloc.c): [start] is a no-op while
    tracing, [stop] clears the counters, [get_traced_memory] is [(0, 0)]
    when not tracing. *)
Module tracemalloc.
Definition start : M unit := fun w =>
  (Ok tt,
   if tracing w then w
   else set_traced true (traced_current w) (traced_peak w) w).

Definition stop : M unit := fun w =>
  (Ok tt, if tracing w then set_traced false 0%N 0%N w else w).

Definition traced_memory (w : World) : N * N :=
  if tracing w then (traced_current w, traced_peak w) else (0%N, 0%N).

Definition get_traced_memory : M (N * N) := fun w =>
  (Ok (traced_memory w), w).

(** What the tracer records when traced code allocates and frees. *)
Definition allocate (size : N) : M unit := fun w =>
  (Ok tt,
   if tracing w then
     let cur := (traced_current w + size)%N in
     set_traced true cur (N.max (traced_peak w) cur) w
   else w).

Definition release (size : N) : M unit := fun w =>
  (Ok tt,
   if tracing w then
     set_traced true (traced_current w - size)%N (traced_peak w) w
   else w).
End tracemalloc.

(** ** [time]

    The two timers read the clock of the process state.  In this model
    the clock moves only where a callable lets time pass ([elapse]): what
    the interpreter spends in the timing loop, in the timer calls and in
    the runner's own bookkeeping is not modelled.  Timings computed in the
    model are therefore those of the callable alone, and no property
    below is stated about how long the runner itself takes. *)
Module time.
Definition perf_counter_ns : M Z := fun w => (Ok (clock_ns w), w).

(** [_PyTime_AsSecondsDouble]: whole seconds are converted directly,
    anything else is converted to a double and divided by 1e9. *)
Definition as_seconds_double (t : Z) : Q :=
  if t mod 1000000000 =? 0 then Float.of_int (t / 1000000000)
  else Float.fl (Float.of_int t / inject_Z 1000000000).

Definition perf_counter : M Q := fun w =>
  (Ok (as_seconds_double (clock_ns w)), w).

(** The passing of [d] nanoseconds. *)
Definition elapse (d : Z) : M unit := fun w =>
  (Ok tt, set_clock_ns (clock_ns w + d) w).
End time.

(** ** [timeit] (Lib/timeit.py) *)
Module timeit.

(** [Timer(stmt, setup, timer)]: [stmt] is a callable, [setup] the code
    of the setup string, [timer] the clock, whose readings of type [T]
    are subtracted by [sub]. *)
Record Timer (T : Type) : Type := mkTimer {
  stmt : M PyObj;
  setup : M unit;
  timer : M T;
  sub : T -> T -> T
}.
Arguments mkTimer {T}.
Arguments stmt {T}.
Arguments setup {T}.
Arguments timer {T}.
Arguments sub {T}.

(** [for _i in _it: stmt()]. *)
Fixpoint loop (n : nat) (f : M PyObj) : M unit :=
  match n with
  | O => ret tt
  | S k => f ;; loop k f
  end.

(** The function generated from the template: setup, first reading, the
    loop, second reading. *)
Definition inner {T} (t : Timer T) (number : Z) : M T :=
  setup t ;;
  t0 <- timer t ;;
  loop (Z.to_nat number) (stmt t) ;;
  t1 <- timer t ;;
  ret (sub t t1 t0).

(** [Timer.timeit]: the collector is switched off around the run and
    switched on again afterwards only if it was on before. *)
Definition timeit {T} (t : Timer T) (number : Z) : M T :=
  gcold <- gc.isenabled ;;
  gc.disable ;;
  try_finally (inner t number) (if gcold then gc.enable else ret tt).

(** [Timer.repeat]: [for i in range(repeat)]. *)
Fixpoint repeat_loop {T} (t : Timer T) (r : nat) (number : Z) : M (list T) :=
  match r with
  | O => ret []
  | S k => x <- timeit t number ;;
           xs <- repeat_loop t k number ;;
           ret (x :: xs)
  end.

Definition repeat {T} (t : Timer T) (repeat number : Z) : M (list T) :=
  repeat_loop t (Z.to_nat repeat) number.

(** [Timer.autorange]: [for j in 1, 2, 5] inside [while True], with
    [i *= 10] between rounds; the threshold is the float literal 0.2. *)
Definition threshold : Q := Float.fl (Qmake 2 10).

Fixpoint autorange_for (t : Timer Q) (i : Z) (js : list Z)
  : M (option (Z * Q)) :=
  match js with
  | [] => ret None
  | j :: js' =>
      let number := i * j in
      time_taken <- timeit t number ;;
      if float_ge time_taken threshold then ret (Some (number, time_taken))
      else autorange_for t i js'
  end.

Fixpoint autorange_while (fuel : nat) (t : Timer Q) (i : Z) : M (Z * Q) :=
  match fuel with
  | O => out_of_fuel
  | S k =>
      r <- autorange_for t i [1; 2; 5] ;;
      match r with
      | Some found => ret found
      | None => autorange_while k t (i * 10)
      end
  end.

Definition autorange (fuel : nat) (t : Timer Q) : M (Z * Q) :=
  autorange_while fuel t 1.

End timeit.

(** ** Files: [open], [read], [with], [tempfile.TemporaryFile]

    Only the table of open files and the descriptor counter are modelled:
    opening, reading and closing take no time on the model's clock and
    are not seen by the tracer. *)

Fixpoint lookup {A} (k : string) (l : list (string * A)) : option A :=
  match l with
  | [] => None
  | (k', v) :: l' => if String.eqb k k' then Some v else lookup k l'
  end.

Definition py_open (path : string) (mode : string) : M FileObj := fun w =>
  match lookup path (files w) with
  | None => (Raise (FileNotFoundError path), w)
  | Some _ =>
      let f := mkFile (next_fileno w) (Some path) mode in
      (Ok f, set_open_files (S (next_fileno w)) (f :: open_files w) w)
  end.

Definition file_read (f : FileObj) : M (list byte) := fun w =>
  match name f with
  | Some path =>
      match lookup path (files w) with
      | Some content => (Ok content, w)
      | None => (Ok [], w)
      end
  | None => (Ok [], w)
  end.

Definition file_close (f : FileObj) : M unit := fun w =>
  (Ok tt,
   set_open_files (next_fileno w)
     (filter (fun g => negb (Nat.eqb (fileno g) (fileno f))) (open_files w)) w).

(** [with enter as f: body]. *)
Definition with_ {A} (enter : M FileObj) (body : FileObj -> M A) : M A :=
  f <- enter ;; try_finally (body f) (file_close f).

Module tempfile.
Definition TemporaryFile (mode : string) : M FileObj := fun w =>
  let f := mkFile (next_fileno w) None mode in
  (Ok f, set_open_files (S (next_fileno w)) (f :: open_files w) w).
End tempfile.

Definition is_open (f : FileObj) (w : World) : bool :=
  existsb (fun g => Nat.eqb (fileno g) (fileno f)) (open_files w).

(** [key in os.environ]. *)
Definition environ_has (key : string) (w : World) : bool :=
  existsb (fun kv => String.eqb key (fst kv)) (environ w).

Definition in_environ (key : string) : M bool := fun w =>
  (Ok (environ_has key w), w).

(** ** [repr] of a [str] and of a list of [str] (Objects/unicodeobject.c)

    A [string] is read as a sequence of code points below 256. *)
Local Open Scope string_scope.

Definition backslash : ascii := "092"%char.
Definition squote : ascii := "'"%char.
Definition dquote : ascii := "034"%char.

Definition isprintable (c : ascii) : bool :=
  let n := nat_of_ascii c in
  ((32 <=? n) && (n <? 127) || (161 <=? n) && negb (n =? 173))%nat.

Definition hex_digit (n : nat) : ascii :=
  nth n (list_ascii_of_string "0123456789abcdef") "0"%char.

Definition repr_char (quote c : ascii) : string :=
  if Ascii.eqb c quote || Ascii.eqb c backslash then
    String backslash (String c EmptyString)
  else if Ascii.eqb c "009"%char then String backslash "t"
  else if Ascii.eqb c "010"%char then String backslash "n"
  else if Ascii.eqb c "013"%char then String backslash "r"
  else if isprintable c then String c EmptyString
  else
    let n := nat_of_ascii c in
    String backslash
      (String "x" (String (hex_digit (n / 16)) (String (hex_digit (n mod 16)) EmptyString))).

Fixpoint has_char (c : ascii) (s : string) : bool :=
  match s with
  | EmptyString => false
  | String c' s' => Ascii.eqb c c' || has_char c s'
  end.

Fixpoint repr_body (quote : ascii) (s : string) : string :=
  match s with
  | EmptyString => EmptyString
  | String c s' => repr_char quote c ++ repr_body quote s'
  end.

(** Single quotes, unless the string has a single quote and no double
    quote. *)
Definition repr_str (s : string) : string :=
  let quote := if has_char squote s && negb (has_char dquote s)
               then dquote else squote in
  String quote (repr_body quote s ++ String quote EmptyString).

Definition repr_list (l : list string) : string :=
  "[" ++ String.concat ", " (map repr_str l) ++ "]".

(** [a == b] on two lists of [str]. *)
Fixpoint list_eqb (a b : list string) : bool :=
  match a, b with
  | [], [] => true
  | x :: a', y :: b' => String.eqb x y && list_eqb a' b'
  | _, _ => false
  end.

(** ** The collaborators of the runner *)

(** A test callable: zero arguments, any effect on the process. *)
Definition Callable : Type := M PyObj.

(** The loader/dumper under test: [loads(buffer)], [dumps(obj)],
    [load(fp)], [dump(obj, fp)]. *)
Record LoaderDumper : Type := mkLoaderDumper {
  loads : list byte -> Callable;
  dumps : PyObj -> Callable;
  load : FileObj -> Callable;
  dump : PyObj -> FileObj -> Callable
}.

(** Modelled from the spec: [BenchmarkSpec] (benchmark_spec.py), the
    read-only configuration object of section 3, with one accessor per
    field. *)
Record BenchmarkSpec : Type := mkBenchmarkSpec {
  get_io_type : string;
  get_command : string;
  get_api : string;
  get_loader_dumper : LoaderDumper;
  get_format : string;
  get_input_file : string;
  get_data_object : PyObj;
  py_gc_disabled : bool;          (* benchmark_spec["py_gc_disabled"] *)
  get_warmups : Z;
  get_iterations : Z
}.

(** The same specification with another collector flag. *)
Definition with_py_gc_disabled (b : bool) (s : BenchmarkSpec) : BenchmarkSpec :=
  mkBenchmarkSpec (get_io_type s) (get_command s) (get_api s)
    (get_loader_dumper s) (get_format s) (get_input_file s)
    (get_data_object s) b (get_warmups s) (get_iterations s).

(** The format classifiers of [amazon.ionbenchmark.Format], imported as
    [_format]; the runner only calls them. *)
Record FormatModule : Type := mkFormatModule {
  format_is_binary : string -> bool;
  format_is_ion : string -> bool
}.

(** [platform.python_implementation()], fixed for the life of the process. *)
Record Platform : Type := mkPlatform {
  python_implementation : string
}.

(** Modelled from the spec: [SampleDist] (sample_dist.py), a wrapper
    around the ordered sequence of samples it is built from. *)
Record SampleDist : Type := mkSampleDist {
  samples : list Q
}.

(** ** benchmark_runner.py *)

Definition _pypy (platform : Platform) : bool :=
  String.eqb (python_implementation platform) "PyPy".

Record BenchmarkResult : Type := mkBenchmarkResult {
  nanos_per_op : SampleDist;
  ops_per_second : SampleDist;
  peak_memory_usage : option Z   (* measured in bytes *)
}.

Definition BenchmarkResult__init__
  (nanos_per_op ops_per_second : list Q) (peak_memory_usage : option Z)
  : BenchmarkResult :=
  mkBenchmarkResult (mkSampleDist nanos_per_op) (mkSampleDist ops_per_second)
                    peak_memory_usage.

Definition not_supported (match_arg : list string) : string :=
  "Argument combination not supported: " ++ repr_list match_arg.

Definition _create_test_fun (_format : FormatModule) (benchmark_spec : BenchmarkSpec)
  : M Callable :=
  let loader_dumper := get_loader_dumper benchmark_spec in
  let match_arg := [get_io_type benchmark_spec; get_command benchmark_spec;
                    get_api benchmark_spec] in
  if list_eqb match_arg ["buffer"; "read"; "load_dump"] then
    buffer <- with_ (py_open (get_input_file benchmark_spec) "rb") file_read ;;
    let test_fn := loads loader_dumper buffer in
    ret test_fn
  else if list_eqb match_arg ["buffer"; "write"; "load_dump"] then
    let data_obj := get_data_object benchmark_spec in
    let test_fn := dumps loader_dumper data_obj in
    ret test_fn
  else if list_eqb match_arg ["file"; "read"; "load_dump"] then
    let data_file := get_input_file benchmark_spec in
    let test_fn := with_ (py_open data_file "rb") (load loader_dumper) in
    ret test_fn
  else if list_eqb match_arg ["file"; "write"; "load_dump"] then
    let data_obj := get_data_object benchmark_spec in
    let data_format := get_format benchmark_spec in
    if format_is_binary _format data_format || format_is_ion _format data_format then
      let test_fn := with_ (tempfile.TemporaryFile "wb") (dump loader_dumper data_obj) in
      ret test_fn
    else
      let test_fn := with_ (tempfile.TemporaryFile "wt") (dump loader_dumper data_obj) in
      ret test_fn
  else
    raise (NotImplementedError (not_supported match_arg)).

(** Measure the memory allocations in bytes for a single invocation of
    [test_fn]. *)
Definition _trace_memory_allocation (test_fn : Callable) : M Z :=
  gc.disable ;;
  tracemalloc.start ;;
  test_fn ;;
  traced <- tracemalloc.get_traced_memory ;;
  let memory_usage_peak := Z.of_N (snd traced) in
  tracemalloc.stop ;;
  gc.enable ;;
  ret memory_usage_peak.

(** Lines 54-58: memory profiling. *)
Definition memory_profiling (platform : Platform) (test_fun : Callable)
  : M (option Z) :=
  if _pypy platform then ret None
  else (peak <- _trace_memory_allocation test_fun ;; ret (Some peak)).

(** Lines 60-64: the setup string, as the code it holds. *)
Definition setup_of (benchmark_spec : BenchmarkSpec) : M unit :=
  if py_gc_disabled benchmark_spec then gc.disable else gc.enable.

(** Lines 72-81: the batch size. *)
Definition calibrate (fuel : nat) (test_fun : Callable) (setup : M unit) : M Z :=
  test_mode <- in_environ "PYTEST_CURRENT_TEST" ;;
  if test_mode then ret 1
  else
    found <- timeit.autorange fuel
               (timeit.mkTimer test_fun setup time.perf_counter float_sub) ;;
    let batch_size := fst found in
    ret (batch_size * 5).

(** Lines 60-84: warm-up, batch size and sample collection. *)
Definition collect_samples (fuel : nat) (benchmark_spec : BenchmarkSpec)
  (test_fun : Callable) : M (Z * list Z) :=
  let setup := setup_of benchmark_spec in
  let timer := timeit.mkTimer test_fun setup time.perf_counter_ns Z.sub in
  timeit.timeit timer (get_warmups benchmark_spec) ;;
  batch_size <- calibrate fuel test_fun setup ;;
  raw_timings <- timeit.repeat timer (get_iterations benchmark_spec) batch_size ;;
  ret (batch_size, raw_timings).

(** Lines 86-90: normalization and the result. *)
Definition normalize (batch_size : Z) (raw_timings : list Z)
  (peak_memory_usage : option Z) : M BenchmarkResult :=
  nanos_per_op <- list_comprehension (fun t => int_truediv t batch_size) raw_timings ;;
  ops_per_sec <- list_comprehension
                   (fun t => float_truediv (Float.of_int 1000000000) t) nanos_per_op ;;
  ret (BenchmarkResult__init__ nanos_per_op ops_per_sec peak_memory_usage).

Definition run_benchmark (platform : Platform) (_format : FormatModule)
  (fuel : nat) (benchmark_spec : BenchmarkSpec) : M BenchmarkResult :=
  test_fun <- _create_test_fun _format benchmark_spec ;;
  peak_memory_usage <- memory_profiling platform test_fun ;;
  sampled <- collect_samples fuel benchmark_spec test_fun ;;
  normalize (fst sampled) (snd sampled) peak_memory_usage.

(** ** Concrete collaborators, for running the model *)

(** A callable that takes [d] nanoseconds and [a] bytes and returns. *)
Definition steady (d : Z) (a : N) : Callable :=
  time.elapse d ;;
  tracemalloc.allocate a ;;
  tracemalloc.release a ;;
  ret PyNone.

Definition steady_loader (d : Z) (a : N) : LoaderDumper :=
  mkLoaderDumper (fun _ => steady d a) (fun _ => steady d a)
                 (fun _ => steady d a) (fun _ _ => steady d a).

(** A loader/dumper that rejects its input. *)
Definition malformed : Callable :=
  time.elapse 5 ;; raise (Exception "malformed input").

Definition failing_loader : LoaderDumper :=
  mkLoaderDumper (fun _ => malformed) (fun _ => malformed)
                 (fun _ => malformed) (fun _ _ => malformed).

Definition example_format : FormatModule :=
  mkFormatModule (fun f => String.eqb f "ion_binary" || String.eqb f "cbor")
                 (fun f => String.eqb f "ion_binary" || String.eqb f "ion_text").

Definition cpython : Platform := mkPlatform "CPython".
Definition pypy : Platform := mkPlatform "PyPy".

Definition example_spec (io command api : string) (ld : LoaderDumper)
  (fmt : string) (gc_off : bool) (warmups iterations : Z) : BenchmarkSpec :=
  mkBenchmarkSpec io command api ld fmt "data.bin" (PyInt 42) gc_off
                  warmups iterations.

(** A fresh process: collector on, tracer off. *)
Definition fresh_world (env : list (string * string)) : World :=
  mkWorld true false 0%N 0%N 1000 env
          [("data.bin", [x01; x02; x03])] 3 [].

Definition under_pytest : World :=
  fresh_world [("PYTEST_CURRENT_TEST", "test_runner.py::test_run (call)")].

Definition production : World := fresh_world [("HOME", "/root")].

(** ** Vocabulary of the statements *)

(** [a] occurs in [s]. *)
Definition occurs_in (a s : string) : Prop :=
  exists before after, s = before ++ a ++ after.

(** Every open file was numbered by the counter. *)
Definition files_wf (w : World) : Prop :=
  Forall (fun g => (fileno g < next_fileno w)%nat) (open_files w).

(** [c] keeps the property [P] of the process state. *)
Definition preserves {A} (P : World -> Prop) (c : M A) : Prop :=
  forall w, P w -> P (snd (c w)).

(** Every operation of a loader/dumper keeps [P]. *)
Definition loader_preserves (P : World -> Prop) (ld : LoaderDumper) : Prop :=
  (forall b, preserves P (loads ld b)) /\
  (forall o, preserves P (dumps ld o)) /\
  (forall f, preserves P (load ld f)) /\
  (forall o f, preserves P (dump ld o f)).

(** The statement, the setup and the clock of a timer keep [P]. *)
Definition timer_preserves {T} (P : World -> Prop) (t : timeit.Timer T) : Prop :=
  preserves P (timeit.stmt t) /\ preserves P (timeit.setup t)
  /\ preserves P (timeit.timer t).

(** The known state of the process-wide switches: collector enabled,
    tracer stopped. *)
Definition restored (w : World) : Prop :=
  gc_enabled w = true /\ tracing w = false.

(** Started in the known state, [c] is in the known state again whenever
    it returns or raises. *)
Definition exits_restored {A} (c : M A) : Prop :=
  forall w, restored w -> fst (c w) <> OutOfFuel -> restored (snd (c w)).

(** The four supported combinations. *)
Definition supported (io command api : string) : Prop :=
  (io = "buffer" \/ io = "file") /\ (command = "read" \/ command = "write")
  /\ api = "load_dump".

Definition one_billion : Q := inject_Z 1000000000.

(** ** Vocabulary of the further properties *)

(** The same specification with another loader/dumper. *)
Definition with_loader_dumper (ld : LoaderDumper) (s : BenchmarkSpec)
  : BenchmarkSpec :=
  mkBenchmarkSpec (get_io_type s) (get_command s) (get_api s) ld
    (get_format s) (get_input_file s) (get_data_object s)
    (py_gc_disabled s) (get_warmups s) (get_iterations s).

(** A quantity of the process state that the runner's own effects (on
    the collector, the tracer and the table of open files) leave alone. *)
Definition runner_blind (m : World -> Z) : Prop :=
  (forall b w, m (set_gc_enabled b w) = m w)
  /\ (forall t c p w, m (set_traced t c p w) = m w)
  /\ (forall n l w, m (set_open_files n l w) = m w).

(** Every call of [f] that returns adds one to [m]. *)
Definition counts_calls (m : World -> Z) (f : Callable) : Prop :=
  forall w v w', f w = (Ok v, w') -> m w' = m w + 1.

(** A loader/dumper that appends one byte to the file calls.log on every
    call (and takes 300 ns), and the number of calls logged so far. *)
Definition calls_logged (w : World) : Z :=
  match lookup "calls.log" (files w) with
  | Some log => Z.of_nat (List.length log)
  | None => 0
  end.

Definition log_call : Callable := fun w =>
  let log := match lookup "calls.log" (files w) with
             | Some log => log
             | None => []
             end in
  (Ok PyNone,
   mkWorld (gc_enabled w) (tracing w) (traced_current w) (traced_peak w)
           (clock_ns w + 300) (environ w)
           (("calls.log", x0a :: log) :: files w)
           (next_fileno w) (open_files w)).

Definition logging_loader : LoaderDumper :=
  mkLoaderDumper (fun _ => log_call) (fun _ => log_call)
                 (fun _ => log_call) (fun _ _ => log_call).

(** Every call of [f] raises [e]. *)
Definition always_raises (e : PyExn) (f : Callable) : Prop :=
  forall w, exists w', f w = (Raise e, w').

(** Two process states that differ at most in the collector switch. *)
Definition same_but_gc (w1 w2 : World) : Prop :=
  set_gc_enabled false w1 = set_gc_enabled false w2.

(** [c] does not see the collector switch: from two such states it gives
    the same outcome and two such states again. *)
Definition gc_blind {A} (c : M A) : Prop :=
  forall w1 w2, same_but_gc w1 w2 ->
    fst (c w1) = fst (c w2) /\ same_but_gc (snd (c w1)) (snd (c w2)).

(** Started in a state with [Q], [c] is in a state with [Q] whenever it
    returns or raises. *)
Definition exits_with {A} (Q : World -> Prop) (c : M A) : Prop :=
  forall w, Q w -> fst (c w) <> OutOfFuel -> Q (snd (c w)).

Definition loader_exits (Q : World -> Prop) (ld : LoaderDumper) : Prop :=
  (forall b, exits_with Q (loads ld b)) /\
  (forall o, exits_with Q (dumps ld o)) /\
  (forall f, exits_with Q (load ld f)) /\
  (forall o f, exits_with Q (dump ld o f)).

(** Exactly the files of [L] are open, all numbered by the counter. *)
Definition open_exactly (L : list FileObj) (w : World) : Prop :=
  open_files w = L /\ files_wf w.

(** * Properties *)

(** ** Rounding *)

Lemma rne_spec (a b : Z) :
  0 < b -> - b <= 2 * (Float.rne a b * b - a) <= b.
Proof.
  intros Hb. unfold Float.rne.
  pose proof (Z.div_mod a b ltac:(lia)) as Hdm.
  pose proof (Z.mod_pos_bound a b Hb) as Hr.
  destruct (Z.compare_spec (2 * (a mod b)) b) as [E|E|E];
    [destruct (Z.even (a / b))|..]; nia.
Qed.

Lemma pow2_pos (e : Z) : 0 < 2 ^ Z.max 0 e.
Proof. apply Z.pow_pos_nonneg; lia. Qed.

Lemma ilog2_spec (n d : Z) :
  0 < n -> 0 < d ->
  d * 2 ^ Z.max 0 (Float.ilog2 n d) <= n * 2 ^ Z.max 0 (- Float.ilog2 n d).
Proof.
  intros Hn Hd. unfold Float.ilog2.
  set (e0 := Z.log2 n - Z.log2 d).
  destruct (Z.leb_spec (d * 2 ^ Z.max 0 e0) (n * 2 ^ Z.max 0 (- e0)))
    as [H|_]; [exact H|].
  destruct (Z.log2_spec n Hn) as [Hn1 _].
  destruct (Z.log2_spec d Hd) as [_ Hd2].
  pose proof (Z.log2_nonneg n). pose proof (Z.log2_nonneg d).
  assert (K : 2 ^ Z.max 0 (e0 - 1) * 2 ^ Z.succ (Z.log2 d)
              = 2 ^ Z.max 0 (- (e0 - 1)) * 2 ^ Z.log2 n).
  { rewrite <- !Z.pow_add_r by lia. f_equal. lia. }
  pose proof (pow2_pos (- (e0 - 1))).
  assert (0 < 2 ^ Z.succ (Z.log2 d)) by (apply Z.pow_pos_nonneg; lia).
  apply Z.mul_le_mono_pos_r with (p := 2 ^ Z.succ (Z.log2 d)); [lia|].
  replace (d * 2 ^ Z.max 0 (e0 - 1) * 2 ^ Z.succ (Z.log2 d))
    with (d * (2 ^ Z.max 0 (- (e0 - 1)) * 2 ^ Z.log2 n))
    by (rewrite <- K; ring).
  set (R := 2 ^ Z.max 0 (- (e0 - 1))) in *.
  transitivity (d * (R * n)).
  - apply Z.mul_le_mono_nonneg_l; [lia|].
    apply Z.mul_le_mono_nonneg_l; lia.
  - replace (n * R * 2 ^ Z.succ (Z.log2 d))
      with (2 ^ Z.succ (Z.log2 d) * (R * n)) by ring.
    apply Z.mul_le_mono_nonneg_r; nia.
Qed.

(** The scaled value is at least 2^52: all 53 bits are significant. *)
Lemma scaled_lb (n d : Z) :
  0 < n -> 0 < d ->
  let s := Float.prec - 1 - Float.ilog2 n d in
  2 ^ 52 * (d * 2 ^ Z.max 0 (- s)) <= n * 2 ^ Z.max 0 s.
Proof.
  intros Hn Hd s. pose proof (ilog2_spec n d Hn Hd) as He.
  set (e := Float.ilog2 n d) in *.
  assert (K : 2 ^ 52 * 2 ^ Z.max 0 (- s) * 2 ^ Z.max 0 (- e)
              = 2 ^ Z.max 0 s * 2 ^ Z.max 0 e).
  { rewrite <- !Z.pow_add_r by lia. f_equal. unfold s, Float.prec. lia. }
  pose proof (pow2_pos (- e)). pose proof (pow2_pos s).
  apply Z.mul_le_mono_pos_r with (p := 2 ^ Z.max 0 (- e)); [lia|].
  replace (2 ^ 52 * (d * 2 ^ Z.max 0 (- s)) * 2 ^ Z.max 0 (- e))
    with (2 ^ Z.max 0 s * (d * 2 ^ Z.max 0 e))
    by (transitivity (d * (2 ^ 52 * 2 ^ Z.max 0 (- s) * 2 ^ Z.max 0 (- e)));
        [rewrite K|]; ring).
  replace (n * 2 ^ Z.max 0 s * 2 ^ Z.max 0 (- e))
    with (2 ^ Z.max 0 s * (n * 2 ^ Z.max 0 (- e))) by ring.
  apply Z.mul_le_mono_nonneg_l; lia.
Qed.

Lemma ilog2_upper (n d : Z) :
  0 < n -> 0 < d ->
  n * 2 ^ Z.max 0 (- Float.ilog2 n d) < 2 * (d * 2 ^ Z.max 0 (Float.ilog2 n d)).
Proof.
  intros Hn Hd. unfold Float.ilog2.
  set (e0 := Z.log2 n - Z.log2 d).
  pose proof (pow2_pos e0). pose proof (pow2_pos (- e0)).
  destruct (Z.leb_spec (d * 2 ^ Z.max 0 e0) (n * 2 ^ Z.max 0 (- e0)))
    as [_|H1].
  - destruct (Z.log2_spec n Hn) as [_ Hn2].
    destruct (Z.log2_spec d Hd) as [Hd1 _].
    pose proof (Z.log2_nonneg n). pose proof (Z.log2_nonneg d).
    assert (K : 2 ^ Z.max 0 (- e0) * 2 ^ Z.succ (Z.log2 n)
                = 2 ^ 1 * (2 ^ Z.max 0 e0 * 2 ^ Z.log2 d)).
    { rewrite <- !Z.pow_add_r by lia. f_equal. lia. }
    change (2 ^ 1) with 2 in K.
    set (R := 2 ^ Z.max 0 (- e0)) in *. set (Pw := 2 ^ Z.max 0 e0) in *.
    apply Z.lt_le_trans with (m := R * 2 ^ Z.succ (Z.log2 n)); [nia|].
    rewrite K. nia.
  - assert (K : 2 ^ Z.max 0 e0 * 2 ^ Z.max 0 (- (e0 - 1))
                = 2 ^ 1 * (2 ^ Z.max 0 (e0 - 1) * 2 ^ Z.max 0 (- e0))).
    { rewrite <- !Z.pow_add_r by lia. f_equal. lia. }
    change (2 ^ 1) with 2 in K.
    pose proof (pow2_pos (e0 - 1)). pose proof (pow2_pos (- (e0 - 1))).
    apply Z.mul_lt_mono_pos_r with (p := 2 ^ Z.max 0 (- e0)); [lia|].
    set (R := 2 ^ Z.max 0 (- e0)) in *. set (Pw := 2 ^ Z.max 0 e0) in *.
    set (R' := 2 ^ Z.max 0 (- (e0 - 1))) in *.
    set (P' := 2 ^ Z.max 0 (e0 - 1)) in *.
    replace (2 * (d * P') * R) with (d * (2 * (P' * R))) by ring.
    rewrite <- K. nia.
Qed.

(** The rounded significand has 53 bits (or is 2^53 itself, when rounding
    carries into the next binade). *)
Lemma significand_bounds (n d : Z) :
  0 < n -> 0 < d ->
  let s := Float.prec - 1 - Float.ilog2 n d in
  2 ^ 52 <= Float.rne (n * 2 ^ Z.max 0 s) (d * 2 ^ Z.max 0 (- s)) <= 2 ^ 53.
Proof.
  intros Hn Hd s.
  pose proof (scaled_lb n d Hn Hd) as Hl. cbv zeta in Hl. fold s in Hl.
  pose proof (ilog2_upper n d Hn Hd) as Hu.
  set (e := Float.ilog2 n d) in *.
  set (A := 2 ^ Z.max 0 s) in *. set (B := 2 ^ Z.max 0 (- s)) in *.
  assert (HA : 0 < A) by apply pow2_pos.
  assert (HB : 0 < B) by apply pow2_pos.
  assert (K : 2 ^ 52 * B * 2 ^ Z.max 0 (- e) = A * 2 ^ Z.max 0 e).
  { unfold A, B. rewrite <- !Z.pow_add_r by lia. f_equal.
    unfold s, Float.prec. lia. }
  pose proof (pow2_pos e). pose proof (pow2_pos (- e)).
  assert (Hub : n * A < 2 ^ 53 * (d * B)).
  { apply Z.mul_lt_mono_pos_r with (p := 2 ^ Z.max 0 (- e)); [lia|].
    replace (2 ^ 53 * (d * B) * 2 ^ Z.max 0 (- e))
      with (2 * d * (2 ^ 52 * B * 2 ^ Z.max 0 (- e)))
      by (change (2 ^ 53) with (2 * 2 ^ 52); ring).
    rewrite K. nia. }
  pose proof (rne_spec (n * A) (d * B) ltac:(lia)) as Hm.
  set (m := Float.rne (n * A) (d * B)) in *.
  assert (HD : 0 < d * B) by lia.
  set (D := d * B) in *. set (Nn := n * A) in *.
  split; nia.
Qed.

Lemma fl_pos_error (n : Z) (d : positive) :
  0 < n ->
  (Qabs (Float.fl_pos n (Zpos d) - Qmake n d) <= Qmake n d * Float.u)%Q.
Proof.
  intros Hn. unfold Float.fl_pos.
  set (s := Float.prec - 1 - Float.ilog2 n (Zpos d)).
  set (A := 2 ^ Z.max 0 s). set (B := 2 ^ Z.max 0 (- s)).
  set (m := Float.rne (n * A) (Zpos d * B)).
  assert (HA : 0 < A) by apply pow2_pos.
  assert (HB : 0 < B) by apply pow2_pos.
  pose proof (rne_spec (n * A) (Zpos d * B) ltac:(lia)) as Hm. fold m in Hm.
  pose proof (scaled_lb n (Zpos d) Hn ltac:(lia)) as Hs. cbv zeta in Hs.
  fold s A B in Hs.
  rewrite Qred_correct.
  apply Qabs_Qle_condition.
  unfold Qle, Qminus, Qplus, Qopp, Qmult, Float.u; cbn [Qnum Qden].
  rewrite !Pos2Z.inj_mul, !Z2Pos.id by lia.
  change (Zpos (2 ^ 53)) with (2 * 2 ^ 52).
  split; nia.
Qed.

(** The standard model of floating-point arithmetic: a rounded result is
    within the relative error [u] of the exact one. *)
Lemma fl_error (q : Q) : (Qabs (Float.fl q - q) <= Qabs q * Float.u)%Q.
Proof.
  destruct q as [[|n|n] d]; unfold Float.fl; cbn [Qnum Qden].
  - discriminate.
  - apply (fl_pos_error (Zpos n) d). lia.
  - pose proof (fl_pos_error (Zpos n) d ltac:(lia)) as H.
    assert (E1 : (- Float.fl_pos (Z.pos n) (Z.pos d) - (Z.neg n # d)
                  == - (Float.fl_pos (Z.pos n) (Z.pos d) - (Z.pos n # d)))%Q).
    { change (Z.neg n # d) with (- (Z.pos n # d))%Q. ring. }
    rewrite E1, Qabs_opp. exact H.
Qed.

Lemma fl_nonzero (q : Q) : ~ (q == 0)%Q -> ~ (Float.fl q == 0)%Q.
Proof.
  intros Hq Hz. pose proof (fl_error q) as H.
  rewrite Hz in H.
  assert (E : (0 - q == - q)%Q) by ring. rewrite E, Qabs_opp in H.
  assert (Hp : (0 < Qabs q)%Q).
  { destruct (Qlt_le_dec 0 (Qabs q)) as [L|L]; [exact L|].
    exfalso. apply Hq. apply Qabs_Qle_condition in L. destruct L.
    apply Qle_antisym; assumption. }
  assert (Hu : (Qabs q * Float.u < Qabs q * 1)%Q).
  { apply Qmult_lt_l; [exact Hp|reflexivity]. }
  rewrite Qmult_1_r in Hu. apply (Qlt_irrefl (Qabs q)).
  eapply Qle_lt_trans; eassumption.
Qed.

Example fl_tenth :
  Float.fl (Qmake 1 10) = Qmake 3602879701896397 36028797018963968.
Proof. vm_compute. reflexivity. Qed.

Example fl_third :
  Float.fl (Qmake 1 3) = Qmake 6004799503160661 18014398509481984.
Proof. vm_compute. reflexivity. Qed.

Example fl_integers :
  Float.fl (inject_Z (2 ^ 53 + 1)) = inject_Z (2 ^ 53)
  /\ Float.fl (inject_Z (2 ^ 53 + 3)) = inject_Z (2 ^ 53 + 4)
  /\ Float.of_int 1000000000 = one_billion
  /\ Float.fl (Qmake (-7) 2) = Qmake (-7) 2.
Proof. vm_compute. repeat split; reflexivity. Qed.

(** ** Running the monad *)

Lemma bind_Ok {A B} (c : M A) (k : A -> M B) (w w' : World) (b : B) :
  bind c k w = (Ok b, w') ->
  exists a w1, c w = (Ok a, w1) /\ k a w1 = (Ok b, w').
Proof.
  unfold bind. destruct (c w) as [[a|e|] w1]; intros H;
    try discriminate; eauto.
Qed.

Lemma bind_run {A B} (c : M A) (k : A -> M B) (w w1 : World) (a : A) :
  c w = (Ok a, w1) -> bind c k w = k a w1.
Proof. unfold bind. intros ->. reflexivity. Qed.

Lemma bind_Raise {A B} (c : M A) (k : A -> M B) (w w1 : World) (e : PyExn) :
  c w = (Raise e, w1) -> bind c k w = (Raise e, w1).
Proof. unfold bind. intros ->. reflexivity. Qed.

Lemma list_eqb_eq (a b : list string) : list_eqb a b = true <-> a = b.
Proof.
  revert b. induction a as [|x a IH]; intros [|y b]; cbn; try easy.
  rewrite andb_true_iff, String.eqb_eq, IH. split.
  - intros [-> ->]. reflexivity.
  - intros E. injection E as -> ->. split; reflexivity.
Qed.

Lemma list_eqb_neq (a b : list string) : a <> b -> list_eqb a b = false.
Proof.
  intros H. destruct (list_eqb a b) eqn:E; [|reflexivity].
  apply list_eqb_eq in E. contradiction.
Qed.

(** ** The memory profiler *)

(** The profiler up to its single invocation: collector off, tracer on. *)
Lemma trace_memory_allocation_run (test_fn : Callable) (w : World) :
  _trace_memory_allocation test_fn w
  = bind test_fn (fun _ =>
      traced <- tracemalloc.get_traced_memory ;;
      tracemalloc.stop ;; gc.enable ;; ret (Z.of_N (snd traced)))
      (snd (tracemalloc.start (set_gc_enabled false w))).
Proof.
  reflexivity.
Qed.

(** When the invocation raises, the exception leaves the profiler with the
    process exactly as the callable left it: nothing is restored. *)
Lemma trace_memory_allocation_raise (test_fn : Callable) (w w1 : World) (e : PyExn) :
  test_fn (snd (tracemalloc.start (set_gc_enabled false w))) = (Raise e, w1) ->
  _trace_memory_allocation test_fn w = (Raise e, w1).
Proof.
  intros H. rewrite trace_memory_allocation_run. apply bind_Raise. exact H.
Qed.

(** When the invocation returns, the profiler returns the peak read from
    the tracer, with the tracer stopped and the collector on. *)
Lemma trace_memory_allocation_Ok (test_fn : Callable) (w w' : World) (p : Z) :
  _trace_memory_allocation test_fn w = (Ok p, w') ->
  exists v w1,
    test_fn (snd (tracemalloc.start (set_gc_enabled false w))) = (Ok v, w1)
    /\ p = Z.of_N (snd (tracemalloc.traced_memory w1))
    /\ w' = set_gc_enabled true (snd (tracemalloc.stop w1)).
Proof.
  rewrite trace_memory_allocation_run. intros H.
  apply bind_Ok in H. destruct H as (v & w1 & Hf & H).
  exists v, w1. split; [exact Hf|].
  cbn in H. injection H as <- <-. split; reflexivity.
Qed.

(** C10: after a successful call of [_trace_memory_allocation] the
    collector is enabled, whatever its state before the call (the profiler
    calls [gc.enable()] and does not restore the previous state). *)
Theorem trace_memory_allocation_leaves_gc_enabled
  (test_fn : Callable) (w w' : World) (p : Z) :
  _trace_memory_allocation test_fn w = (Ok p, w') ->
  gc_enabled w' = true.
Proof.
  intros H. apply trace_memory_allocation_Ok in H.
  destruct H as (v & w1 & _ & _ & ->). reflexivity.
Qed.

(** A caller that had the collector disabled finds it enabled. *)
Lemma trace_memory_allocation_leaves_gc_enabled_witness :
  gc_enabled (set_gc_enabled false production) = false
  /\ gc_enabled (snd (_trace_memory_allocation (steady 250 64)
                        (set_gc_enabled false production))) = true.
Proof.
  split; [reflexivity|].
  apply (trace_memory_allocation_leaves_gc_enabled (steady 250 64)
           (set_gc_enabled false production) _ 64).
  reflexivity.
Defined.

(** C1: at a callable that raises, the profiler lets the exception out
    with the collector still disabled and the tracer still running. *)
Theorem trace_memory_allocation_raise_not_restored :
  fst (_trace_memory_allocation malformed production)
    = Raise (Exception "malformed input")
  /\ gc_enabled (snd (_trace_memory_allocation malformed production)) = false
  /\ tracing (snd (_trace_memory_allocation malformed production)) = true.
Proof. repeat split. Qed.

(** ** The test function factory *)

Lemma append_assoc (a b c : string) : (a ++ b) ++ c = a ++ (b ++ c).
Proof. induction a as [|x a IH]; cbn; [reflexivity|]. rewrite IH. reflexivity. Qed.

Lemma repr_list_three (a b c : string) :
  repr_list [a; b; c]
  = "[" ++ repr_str a ++ ", " ++ repr_str b ++ ", " ++ repr_str c ++ "]".
Proof.
  unfold repr_list. cbn [map String.concat].
  rewrite ?append_assoc. reflexivity.
Qed.

Example repr_quotes_and_escapes :
  repr_str "file" = "'file'"
  /\ repr_str "it's" = String dquote ("it's" ++ String dquote "")
  /\ repr_str (String "a" (String backslash (String "010" "b")))
     = String squote (String "a" (String backslash (String backslash
         (String backslash (String "n" (String "b" (String squote "")))))))
  /\ repr_str (String "127" "") = String squote (String backslash "x7f'").
Proof. repeat split. Qed.

Lemma not_supported_neq (io command api : string) :
  ~ supported io command api ->
  forall a b, In (a, b) [("buffer", "read"); ("buffer", "write");
                         ("file", "read"); ("file", "write")] ->
  [io; command; api] <> [a; b; "load_dump"].
Proof.
  intros H a b Hin E. injection E as -> -> ->. apply H. unfold supported.
  cbn in Hin.
  repeat (destruct Hin as [Hin|Hin];
          [injection Hin as <- <-; auto|]).
  destruct Hin.
Qed.

(** C3: outside the four supported combinations the factory raises
    [NotImplementedError]; the message holds the [repr] of the io-type,
    the command and the api; the process state is untouched, and
    [run_benchmark] stops there, before it profiles or times anything. *)
Theorem create_test_fun_not_implemented
  (platform : Platform) (_format : FormatModule) (fuel : nat)
  (benchmark_spec : BenchmarkSpec) (w : World) :
  let io := get_io_type benchmark_spec in
  let command := get_command benchmark_spec in
  let api := get_api benchmark_spec in
  let msg := "Argument combination not supported: ["
             ++ repr_str io ++ ", " ++ repr_str command ++ ", "
             ++ repr_str api ++ "]" in
  ~ supported io command api ->
  _create_test_fun _format benchmark_spec w = (Raise (NotImplementedError msg), w)
  /\ run_benchmark platform _format fuel benchmark_spec w
     = (Raise (NotImplementedError msg), w)
  /\ occurs_in (repr_str io) msg
  /\ occurs_in (repr_str command) msg
  /\ occurs_in (repr_str api) msg.
Proof.
  intros io command api msg H.
  assert (E : _create_test_fun _format benchmark_spec w
              = (Raise (NotImplementedError msg), w)).
  { unfold _create_test_fun. fold io command api.
    pose proof (not_supported_neq io command api H) as N.
    rewrite !list_eqb_neq by (apply N; cbn; tauto).
    unfold raise, not_supported. rewrite repr_list_three.
    unfold msg. rewrite ?append_assoc. reflexivity. }
  split; [exact E|]. split.
  - unfold run_benchmark. apply bind_Raise. exact E.
  - unfold msg. repeat split.
    + eexists _, _. reflexivity.
    + exists ("Argument combination not supported: [" ++ repr_str io ++ ", "),
        (", " ++ repr_str api ++ "]").
      rewrite ?append_assoc. reflexivity.
    + exists ("Argument combination not supported: [" ++ repr_str io ++ ", "
              ++ repr_str command ++ ", "), "]".
      rewrite ?append_assoc. reflexivity.
Qed.

Lemma create_test_fun_not_implemented_witness :
  ~ supported "file" "read" "stream"
  /\ run_benchmark cpython example_format 10
       (example_spec "file" "read" "stream" (steady_loader 250 64)
                     "ion_binary" true 1 5) production
     = (Raise (NotImplementedError
          "Argument combination not supported: ['file', 'read', 'stream']"),
        production).
Proof.
  assert (N : ~ supported "file" "read" "stream").
  { unfold supported. intros (_ & _ & E). discriminate E. }
  split; [exact N|].
  exact (proj1 (proj2 (create_test_fun_not_implemented cpython example_format 10
           (example_spec "file" "read" "stream" (steady_loader 250 64)
                         "ion_binary" true 1 5) production N))).
Defined.


Lemma closed_not_open (f : FileObj) (w : World) :
  is_open f (snd (file_close f w)) = false.
Proof.
  unfold is_open, file_close. cbn.
  induction (open_files w) as [|g l IH]; cbn; [reflexivity|].
  destruct (Nat.eqb (fileno g) (fileno f)) eqn:E; cbn; [exact IH|].
  rewrite E. exact IH.
Qed.

Lemma fresh_not_open (w : World) (name : option string) (mode : string) :
  files_wf w -> is_open (mkFile (next_fileno w) name mode) w = false.
Proof.
  unfold files_wf, is_open. cbn.
  induction 1 as [|g l Hg _ IH]; cbn; [reflexivity|].
  rewrite IH, orb_false_r. apply Nat.eqb_neq. lia.
Qed.

(** Leaving a [with] block, by return or by exception, closes the file. *)
Lemma with_run {A} (enter : M FileObj) (body : FileObj -> M A)
  (w w1 w2 : World) (f : FileObj) (o : Outcome A) :
  enter w = (Ok f, w1) -> body f w1 = (o, w2) -> o <> OutOfFuel ->
  with_ enter body w = (o, snd (file_close f w2)).
Proof.
  intros He Hb Ho. unfold with_. rewrite (bind_run _ _ _ _ _ He).
  unfold try_finally. rewrite Hb.
  destruct o as [a|e|]; [reflexivity|reflexivity|contradiction].
Qed.

(** C9: for file/write/load_dump the factory classifies the format once,
    without touching the process, and returns a callable that on every
    invocation opens a new anonymous temporary file (mode "wb" for a
    binary or Ion format, "wt" otherwise), hands it with the data object
    to [dump], and closes it whether [dump] returns or raises: the file
    is not open, hence does not exist, after the invocation. *)
Theorem create_test_fun_file_write
  (_format : FormatModule) (benchmark_spec : BenchmarkSpec) :
  let loader_dumper := get_loader_dumper benchmark_spec in
  let data_obj := get_data_object benchmark_spec in
  let data_format := get_format benchmark_spec in
  let mode := if format_is_binary _format data_format
                 || format_is_ion _format data_format
              then "wb" else "wt" in
  let test_fn := with_ (tempfile.TemporaryFile mode) (dump loader_dumper data_obj) in
  get_io_type benchmark_spec = "file" ->
  get_command benchmark_spec = "write" ->
  get_api benchmark_spec = "load_dump" ->
  (forall w, _create_test_fun _format benchmark_spec w = (Ok test_fn, w))
  /\ forall w1,
       let f := mkFile (next_fileno w1) None mode in
       let opened := set_open_files (S (next_fileno w1)) (f :: open_files w1) w1 in
       (files_wf w1 -> is_open f w1 = false)
       /\ is_open f opened = true
       /\ forall o w2,
            dump loader_dumper data_obj f opened = (o, w2) ->
            o <> OutOfFuel ->
            test_fn w1 = (o, snd (file_close f w2))
            /\ is_open f (snd (file_close f w2)) = false.
Proof.
  intros loader_dumper data_obj data_format mode test_fn Hio Hcmd Hapi.
  split.
  - intros w. unfold _create_test_fun. rewrite Hio, Hcmd, Hapi. cbn [list_eqb String.eqb Ascii.eqb Bool.eqb andb].
    fold loader_dumper data_obj data_format.
    unfold test_fn, mode.
    destruct (format_is_binary _format data_format
              || format_is_ion _format data_format); reflexivity.
  - intros w1 f opened. split; [|split].
    + apply fresh_not_open.
    + unfold is_open, opened. cbn. rewrite Nat.eqb_refl. reflexivity.
    + intros o w2 Hd Ho. split; [|apply closed_not_open].
      unfold test_fn. eapply with_run; [reflexivity|exact Hd|exact Ho].
Qed.

Lemma create_test_fun_file_write_witness :
  let s := example_spec "file" "write" "load_dump" failing_loader
                        "ion_binary" false 1 3 in
  (get_io_type s = "file" /\ get_command s = "write" /\ get_api s = "load_dump")
  /\ (forall w, _create_test_fun example_format s w
                = (Ok (with_ (tempfile.TemporaryFile "wb")
                             (dump failing_loader (PyInt 42))), w))
  /\ fst (with_ (tempfile.TemporaryFile "wb") (dump failing_loader (PyInt 42))
            production) = Raise (Exception "malformed input")
  /\ open_files (snd (with_ (tempfile.TemporaryFile "wb")
                        (dump failing_loader (PyInt 42)) production)) = [].
Proof.
  intros s.
  pose proof (create_test_fun_file_write example_format s
                eq_refl eq_refl eq_refl) as [Hc Hr].
  split; [repeat split|]. split; [exact Hc|].
  specialize (Hr production). cbv zeta in Hr.
  destruct Hr as (_ & _ & Hr).
  specialize (Hr (Raise (Exception "malformed input")) _ eq_refl
                 ltac:(discriminate)).
  destruct Hr as [Hr _].
  change (with_ (tempfile.TemporaryFile "wb") (dump failing_loader (PyInt 42)))
    with (with_ (tempfile.TemporaryFile
                   (if format_is_binary example_format (get_format s)
                       || format_is_ion example_format (get_format s)
                    then "wb" else "wt"))
                (dump (get_loader_dumper s) (get_data_object s))).
  rewrite Hr. split; reflexivity.
Defined.

(** ** Normalization *)

Lemma quotient_product_close (b x : Q) :
  ~ (x == 0)%Q ->
  (Qabs (Float.fl (b / x) * x - b) <= Qabs b * Float.u)%Q.
Proof.
  intros Hx. pose proof (fl_error (b / x)) as He.
  assert (E : (Float.fl (b / x) * x - b == (Float.fl (b / x) - b / x) * x)%Q)
    by (field; exact Hx).
  rewrite E, Qabs_Qmult.
  assert (B : (Qabs b == Qabs (b / x) * Qabs x)%Q).
  { rewrite <- Qabs_Qmult. apply Qabs_wd. field. exact Hx. }
  rewrite B.
  setoid_replace (Qabs (b / x) * Qabs x * Float.u)%Q
    with (Qabs (b / x) * Float.u * Qabs x)%Q by ring.
  apply Qmult_le_compat_r; [exact He|apply Qabs_nonneg].
Qed.

Lemma float_product_close (b x : Q) :
  ~ (x == 0)%Q ->
  (Qabs (float_mul (Float.fl (b / x)) x - b)
   <= Qabs b * (Float.u * (2 + Float.u)))%Q.
Proof.
  intros Hx. unfold float_mul.
  set (p := (Float.fl (b / x) * x)%Q).
  pose proof (quotient_product_close b x Hx) as H1. fold p in H1.
  pose proof (fl_error p) as H2.
  assert (H3 : (Qabs p <= Qabs b + Qabs b * Float.u)%Q).
  { setoid_replace p with (b + (p - b))%Q by ring.
    eapply Qle_trans; [apply Qabs_triangle|].
    apply Qplus_le_r. exact H1. }
  setoid_replace (Float.fl p - b)%Q with ((Float.fl p - p) + (p - b))%Q by ring.
  eapply Qle_trans; [apply Qabs_triangle|].
  assert (H4 : (Qabs p * Float.u <= (Qabs b + Qabs b * Float.u) * Float.u)%Q).
  { apply Qmult_le_compat_r; [exact H3|discriminate]. }
  setoid_replace (Qabs b * (Float.u * (2 + Float.u)))%Q
    with ((Qabs b + Qabs b * Float.u) * Float.u + Qabs b * Float.u)%Q by ring.
  apply Qplus_le_compat; [|exact H1].
  eapply Qle_trans; [exact H2|exact H4].
Qed.

Lemma int_truediv_run (a b : Z) (w : World) :
  b <> 0 -> int_truediv a b w = (Ok (Float.fl (inject_Z a / inject_Z b)), w).
Proof.
  intros Hb. unfold int_truediv.
  destruct (Z.eqb_spec b 0); [contradiction|reflexivity].
Qed.

(** Dividing by a non-zero batch size never raises. *)
Lemma nanos_per_op_run (batch_size : Z) (raw_timings : list Z) (w : World) :
  batch_size <> 0 ->
  list_comprehension (fun t => int_truediv t batch_size) raw_timings w
  = (Ok (map (fun t => Float.fl (inject_Z t / inject_Z batch_size)) raw_timings), w).
Proof.
  intros Hb. induction raw_timings as [|t l IH]; [reflexivity|].
  cbn [list_comprehension map].
  rewrite (bind_run _ _ _ _ _ (int_truediv_run t batch_size w Hb)).
  rewrite (bind_run _ _ _ _ _ IH). reflexivity.
Qed.

Lemma nanos_per_op_Ok (batch_size : Z) (raw_timings : list Z) (w w' : World)
  (l : list Q) :
  list_comprehension (fun t => int_truediv t batch_size) raw_timings w = (Ok l, w') ->
  l = map (fun t => Float.fl (inject_Z t / inject_Z batch_size)) raw_timings
  /\ w' = w.
Proof.
  destruct (Z.eq_dec batch_size 0) as [->|Hb].
  - destruct raw_timings as [|t raw]; cbn.
    + intros H. injection H as <- <-. split; reflexivity.
    + discriminate.
  - rewrite nanos_per_op_run by exact Hb. intros H.
    injection H as <- <-. split; reflexivity.
Qed.

Lemma of_int_billion : Float.of_int 1000000000 = one_billion.
Proof. vm_compute. reflexivity. Qed.

Lemma ops_per_sec_Ok (nanos : list Q) (w w' : World) (l : list Q) :
  list_comprehension (fun t => float_truediv (Float.of_int 1000000000) t) nanos w
  = (Ok l, w') ->
  l = map (fun t => Float.fl (one_billion / t)) nanos
  /\ Forall (fun t => ~ (t == 0)%Q) nanos
  /\ w' = w.
Proof.
  rewrite of_int_billion.
  revert l w w'. induction nanos as [|t nanos IH]; intros l w w';
    cbn [list_comprehension].
  - intros H. injection H as <- <-. repeat split. constructor.
  - intros H. apply bind_Ok in H. destruct H as (y & w1 & Hy & H).
    apply bind_Ok in H. destruct H as (ys & w2 & Hys & H).
    injection H as <- <-.
    apply IH in Hys. destruct Hys as (-> & Hnz & ->).
    unfold float_truediv in Hy.
    destruct (Qeq_bool t 0) eqn:E; [discriminate|].
    injection Hy as <- <-. repeat split.
    constructor; [|exact Hnz].
    intros Ht. apply Qeq_bool_iff in Ht. congruence.
Qed.

(** What a returned result was computed from. *)
Lemma normalize_Ok (batch_size : Z) (raw_timings : list Z) (peak : option Z)
  (w w' : World) (r : BenchmarkResult) :
  normalize batch_size raw_timings peak w = (Ok r, w') ->
  samples (nanos_per_op r)
  = map (fun t => Float.fl (inject_Z t / inject_Z batch_size)) raw_timings
  /\ samples (ops_per_second r)
     = map (fun x => Float.fl (one_billion / x)) (samples (nanos_per_op r))
  /\ Forall (fun x => ~ (x == 0)%Q) (samples (nanos_per_op r))
  /\ peak_memory_usage r = peak
  /\ w' = w.
Proof.
  unfold normalize. intros H.
  apply bind_Ok in H. destruct H as (nanos & w1 & Hn & H).
  apply bind_Ok in H. destruct H as (ops & w2 & Ho & H).
  injection H as <- <-.
  apply nanos_per_op_Ok in Hn. destruct Hn as [-> ->].
  apply ops_per_sec_Ok in Ho. destruct Ho as (-> & Hnz & ->).
  cbn. repeat split. exact Hnz.
Qed.

(** A result is returned when the batch size and every raw timing are
    non-zero; a batch measured as 0 ns raises [ZeroDivisionError] in the
    second comprehension. *)
Lemma inject_Z_nonzero (z : Z) : z <> 0 -> ~ (inject_Z z == 0)%Q.
Proof. intros Hz E. apply Hz. unfold Qeq in E. cbn in E. lia. Qed.

Lemma timing_quotient_nonzero (t batch_size : Z) :
  t <> 0 -> batch_size <> 0 ->
  ~ (Float.fl (inject_Z t / inject_Z batch_size) == 0)%Q.
Proof.
  intros Ht Hb. apply fl_nonzero. intros E.
  pose proof (inject_Z_nonzero batch_size Hb) as Hb'.
  assert (K : (inject_Z t == inject_Z t / inject_Z batch_size * inject_Z batch_size)%Q)
    by (field; exact Hb').
  rewrite E in K. apply (inject_Z_nonzero t Ht). rewrite K. ring.
Qed.

Lemma ops_per_sec_run (nanos : list Q) (w : World) :
  Forall (fun t => ~ (t == 0)%Q) nanos ->
  list_comprehension (fun t => float_truediv (Float.of_int 1000000000) t) nanos w
  = (Ok (map (fun t => Float.fl (one_billion / t)) nanos), w).
Proof.
  rewrite of_int_billion.
  induction 1 as [|t nanos Ht _ IH]; [reflexivity|].
  cbn [list_comprehension map]. unfold bind at 1, float_truediv at 1.
  destruct (Qeq_bool t 0) eqn:E; [apply Qeq_bool_iff in E; contradiction|].
  cbn [ret]. rewrite (bind_run _ _ _ _ _ IH). reflexivity.
Qed.

Lemma normalize_run (batch_size : Z) (raw_timings : list Z)
  (peak : option Z) (w : World) :
  batch_size <> 0 -> Forall (fun t => t <> 0) raw_timings ->
  let nanos := map (fun t => Float.fl (inject_Z t / inject_Z batch_size))
                   raw_timings in
  normalize batch_size raw_timings peak w
  = (Ok (BenchmarkResult__init__ nanos
           (map (fun x => Float.fl (one_billion / x)) nanos) peak), w).
Proof.
  intros Hb Hraw nanos. unfold normalize.
  rewrite (bind_run _ _ _ _ _ (nanos_per_op_run batch_size raw_timings w Hb)).
  fold nanos.
  assert (Hn : Forall (fun x => ~ (x == 0)%Q) nanos).
  { unfold nanos. apply Forall_map. eapply Forall_impl; [|exact Hraw].
    intros t Ht. apply timing_quotient_nonzero; assumption. }
  rewrite (bind_run _ _ _ _ _ (ops_per_sec_run nanos w Hn)). reflexivity.
Qed.

Example normalize_zero_timing :
  fst (normalize 1 [250; 0; 250] (Some 64) production) = Raise ZeroDivisionError.
Proof. vm_compute. reflexivity. Qed.

Lemma run_benchmark_Ok (platform : Platform) (_format : FormatModule)
  (fuel : nat) (benchmark_spec : BenchmarkSpec) (w w' : World)
  (r : BenchmarkResult) :
  run_benchmark platform _format fuel benchmark_spec w = (Ok r, w') ->
  exists test_fun w1 peak w2 batch_size raw_timings,
    _create_test_fun _format benchmark_spec w = (Ok test_fun, w1)
    /\ memory_profiling platform test_fun w1 = (Ok peak, w2)
    /\ collect_samples fuel benchmark_spec test_fun w2
       = (Ok (batch_size, raw_timings), w')
    /\ normalize batch_size raw_timings peak w' = (Ok r, w').
Proof.
  unfold run_benchmark. intros H.
  apply bind_Ok in H. destruct H as (test_fun & w1 & H1 & H).
  apply bind_Ok in H. destruct H as (peak & w2 & H2 & H).
  apply bind_Ok in H. destruct H as ([b raw] & w3 & H3 & H).
  cbn [fst snd] in H.
  pose proof (normalize_Ok _ _ _ _ _ _ H) as (_ & _ & _ & _ & ->).
  exists test_fun, w1, peak, w2, b, raw. auto.
Qed.

(** ** Properties of the process that the runner keeps

    [P] is any property of the process state that does not depend on the
    collector switch nor on the table of open files (and, for the
    profiler, nor on the tracer): the runner keeps it whenever the
    loader/dumper does. *)
Section Frame.

Variable P : World -> Prop.
Hypothesis P_gc : forall b w, P w -> P (set_gc_enabled b w).
Hypothesis P_files : forall n l w, P w -> P (set_open_files n l w).
Hypothesis P_traced : forall t c p w, P w -> P (set_traced t c p w).

Lemma preserves_ret {A} (a : A) : preserves P (ret a).
Proof. intros w H. exact H. Qed.

Lemma preserves_raise {A} (e : PyExn) : preserves P (@raise A e).
Proof. intros w H. exact H. Qed.

Lemma preserves_bind {A B} (c : M A) (k : A -> M B) :
  preserves P c -> (forall a, preserves P (k a)) -> preserves P (bind c k).
Proof.
  intros Hc Hk w H. specialize (Hc w H). unfold bind.
  destruct (c w) as [[a|e|] w1]; cbn in *; [apply Hk|..]; exact Hc.
Qed.

Lemma preserves_try_finally {A} (c : M A) (fin : M unit) :
  preserves P c -> preserves P fin -> preserves P (try_finally c fin).
Proof.
  intros Hc Hf w H. specialize (Hc w H). unfold try_finally.
  destruct (c w) as [[a|e|] w1]; cbn in *; [| |exact Hc];
    specialize (Hf w1 Hc); destruct (fin w1) as [[[]|e'|] w2]; exact Hf.
Qed.

Lemma preserves_list_comprehension {A B} (f : A -> M B) (l : list A) :
  (forall a, preserves P (f a)) -> preserves P (list_comprehension f l).
Proof.
  intros Hf. induction l as [|x l IH]; cbn [list_comprehension].
  - apply preserves_ret.
  - apply preserves_bind; [apply Hf|]. intros y.
    apply preserves_bind; [exact IH|]. intros ys. apply preserves_ret.
Qed.

Lemma preserves_gc_isenabled : preserves P gc.isenabled.
Proof. intros w H. exact H. Qed.

Lemma preserves_gc_enable : preserves P gc.enable.
Proof. intros w H. apply P_gc. exact H. Qed.

Lemma preserves_gc_disable : preserves P gc.disable.
Proof. intros w H. apply P_gc. exact H. Qed.

Lemma preserves_perf_counter_ns : preserves P time.perf_counter_ns.
Proof. intros w H. exact H. Qed.

Lemma preserves_perf_counter : preserves P time.perf_counter.
Proof. intros w H. exact H. Qed.

Lemma preserves_in_environ (key : string) : preserves P (in_environ key).
Proof. intros w H. exact H. Qed.

Lemma preserves_py_open (path mode : string) : preserves P (py_open path mode).
Proof.
  intros w H. unfold py_open. destruct (lookup path (files w)); cbn;
    [apply P_files|]; exact H.
Qed.

Lemma preserves_file_read (f : FileObj) : preserves P (file_read f).
Proof.
  intros w H. unfold file_read. destruct (name f) as [path|]; [|exact H].
  destruct (lookup path (files w)); exact H.
Qed.

Lemma preserves_file_close (f : FileObj) : preserves P (file_close f).
Proof. intros w H. apply P_files. exact H. Qed.

Lemma preserves_TemporaryFile (mode : string) :
  preserves P (tempfile.TemporaryFile mode).
Proof. intros w H. apply P_files. exact H. Qed.

Lemma preserves_with {A} (enter : M FileObj) (body : FileObj -> M A) :
  preserves P enter -> (forall f, preserves P (body f)) ->
  preserves P (with_ enter body).
Proof.
  intros He Hb. apply preserves_bind; [exact He|]. intros f.
  apply preserves_try_finally; [apply Hb|apply preserves_file_close].
Qed.

Lemma preserves_tracemalloc_start : preserves P tracemalloc.start.
Proof.
  intros w H. unfold tracemalloc.start. cbn.
  destruct (tracing w); [|apply P_traced]; exact H.
Qed.

Lemma preserves_tracemalloc_stop : preserves P tracemalloc.stop.
Proof.
  intros w H. unfold tracemalloc.stop. cbn.
  destruct (tracing w); [apply P_traced|]; exact H.
Qed.

Lemma preserves_get_traced_memory : preserves P tracemalloc.get_traced_memory.
Proof. intros w H. exact H. Qed.

(** *** [timeit] *)

Lemma preserves_loop (n : nat) (f : M PyObj) :
  preserves P f -> preserves P (timeit.loop n f).
Proof.
  intros Hf. induction n as [|n IH]; cbn [timeit.loop].
  - apply preserves_ret.
  - apply preserves_bind; [exact Hf|]. intros _. exact IH.
Qed.

Lemma preserves_timeit {T} (t : timeit.Timer T) (number : Z) :
  timer_preserves P t -> preserves P (timeit.timeit t number).
Proof.
  intros (Hs & Hu & Ht). unfold timeit.timeit.
  apply preserves_bind; [apply preserves_gc_isenabled|]. intros gcold.
  apply preserves_bind; [apply preserves_gc_disable|]. intros _.
  apply preserves_try_finally.
  - unfold timeit.inner.
    apply preserves_bind; [exact Hu|]. intros _.
    apply preserves_bind; [exact Ht|]. intros t0.
    apply preserves_bind; [apply preserves_loop; exact Hs|]. intros _.
    apply preserves_bind; [exact Ht|]. intros t1. apply preserves_ret.
  - destruct gcold; [apply preserves_gc_enable|apply preserves_ret].
Qed.

Lemma preserves_repeat {T} (t : timeit.Timer T) (r number : Z) :
  timer_preserves P t -> preserves P (timeit.repeat t r number).
Proof.
  intros Ht. unfold timeit.repeat.
  induction (Z.to_nat r) as [|n IH]; cbn [timeit.repeat_loop].
  - apply preserves_ret.
  - apply preserves_bind; [apply preserves_timeit; exact Ht|]. intros x.
    apply preserves_bind; [exact IH|]. intros xs. apply preserves_ret.
Qed.

Lemma preserves_autorange (fuel : nat) (t : timeit.Timer Q) :
  timer_preserves P t -> preserves P (timeit.autorange fuel t).
Proof.
  intros Ht. unfold timeit.autorange. generalize 1.
  induction fuel as [|fuel IH]; intros i; cbn [timeit.autorange_while].
  - intros w H. exact H.
  - apply preserves_bind.
    + induction [1; 2; 5] as [|j js IHj]; cbn [timeit.autorange_for].
      * apply preserves_ret.
      * apply preserves_bind; [apply preserves_timeit; exact Ht|].
        intros time_taken.
        destruct (float_ge time_taken timeit.threshold);
          [apply preserves_ret|exact IHj].
    + intros [found|]; [apply preserves_ret|apply IH].
Qed.

(** *** The runner *)

Lemma preserves_setup_of (benchmark_spec : BenchmarkSpec) :
  preserves P (setup_of benchmark_spec).
Proof.
  unfold setup_of. destruct (py_gc_disabled benchmark_spec);
    [apply preserves_gc_disable|apply preserves_gc_enable].
Qed.

Lemma preserves_create_test_fun (_format : FormatModule)
  (benchmark_spec : BenchmarkSpec) :
  preserves P (_create_test_fun _format benchmark_spec).
Proof.
  unfold _create_test_fun.
  repeat match goal with
         | |- preserves P (if ?b then _ else _) => destruct b
         end;
    try apply preserves_ret; try apply preserves_raise.
  apply preserves_bind; [|intros b; apply preserves_ret].
  apply preserves_with; [apply preserves_py_open|apply preserves_file_read].
Qed.

Lemma created_test_fun_preserves (_format : FormatModule)
  (benchmark_spec : BenchmarkSpec) (w w1 : World) (test_fun : Callable) :
  loader_preserves P (get_loader_dumper benchmark_spec) ->
  _create_test_fun _format benchmark_spec w = (Ok test_fun, w1) ->
  preserves P test_fun.
Proof.
  intros (Hloads & Hdumps & Hload & Hdump). unfold _create_test_fun.
  repeat match goal with
         | |- context [if ?b then _ else _] => destruct b
         end; intros H.
  - apply bind_Ok in H. destruct H as (buffer & w2 & _ & H).
    injection H as <- _. apply Hloads.
  - injection H as <- _. apply Hdumps.
  - injection H as <- _.
    apply preserves_with; [apply preserves_py_open|apply Hload].
  - injection H as <- _.
    apply preserves_with; [apply preserves_TemporaryFile|apply Hdump].
  - injection H as <- _.
    apply preserves_with; [apply preserves_TemporaryFile|apply Hdump].
  - discriminate H.
Qed.

Lemma preserves_trace_memory_allocation (test_fn : Callable) :
  preserves P test_fn -> preserves P (_trace_memory_allocation test_fn).
Proof.
  intros Hf. unfold _trace_memory_allocation.
  apply preserves_bind; [apply preserves_gc_disable|]. intros _.
  apply preserves_bind; [apply preserves_tracemalloc_start|]. intros _.
  apply preserves_bind; [exact Hf|]. intros _.
  apply preserves_bind; [apply preserves_get_traced_memory|]. intros traced.
  apply preserves_bind; [apply preserves_tracemalloc_stop|]. intros _.
  apply preserves_bind; [apply preserves_gc_enable|]. intros _.
  apply preserves_ret.
Qed.

Lemma preserves_memory_profiling (platform : Platform) (test_fun : Callable) :
  preserves P test_fun -> preserves P (memory_profiling platform test_fun).
Proof.
  intros Hf. unfold memory_profiling. destruct (_pypy platform).
  - apply preserves_ret.
  - apply preserves_bind; [apply preserves_trace_memory_allocation; exact Hf|].
    intros p. apply preserves_ret.
Qed.

Lemma preserves_bind_Ok {A B} (c : M A) (k : A -> M B) :
  preserves P c ->
  (forall a w w1, c w = (Ok a, w1) -> preserves P (k a)) ->
  preserves P (bind c k).
Proof.
  intros Hc Hk w H. specialize (Hc w H). unfold bind.
  destruct (c w) as [[a|e|] w1] eqn:E; cbn in *;
    [exact (Hk a w w1 E w1 Hc)|..]; exact Hc.
Qed.

Lemma preserves_calibrate (fuel : nat) (test_fun : Callable) (setup : M unit) :
  preserves P test_fun -> preserves P setup ->
  preserves P (calibrate fuel test_fun setup).
Proof.
  intros Hf Hs. unfold calibrate.
  apply preserves_bind; [apply preserves_in_environ|]. intros [|].
  - apply preserves_ret.
  - apply preserves_bind; [|intros found; apply preserves_ret].
    apply preserves_autorange. split; [exact Hf|].
    split; [exact Hs|apply preserves_perf_counter].
Qed.

Lemma preserves_collect_samples (fuel : nat) (benchmark_spec : BenchmarkSpec)
  (test_fun : Callable) :
  preserves P test_fun ->
  preserves P (collect_samples fuel benchmark_spec test_fun).
Proof.
  intros Hf. unfold collect_samples.
  assert (Ht : timer_preserves P
                 (timeit.mkTimer test_fun (setup_of benchmark_spec)
                                 time.perf_counter_ns Z.sub)).
  { split; [exact Hf|]. split;
      [apply preserves_setup_of|apply preserves_perf_counter_ns]. }
  apply preserves_bind; [apply preserves_timeit; exact Ht|]. intros _.
  apply preserves_bind;
    [apply preserves_calibrate; [exact Hf|apply preserves_setup_of]|].
  intros batch_size.
  apply preserves_bind; [apply preserves_repeat; exact Ht|].
  intros raw. apply preserves_ret.
Qed.

Lemma preserves_normalize (batch_size : Z) (raw_timings : list Z)
  (peak : option Z) :
  preserves P (normalize batch_size raw_timings peak).
Proof.
  unfold normalize.
  apply preserves_bind.
  { apply preserves_list_comprehension. intros t. unfold int_truediv.
    destruct (Z.eqb batch_size 0); [apply preserves_raise|apply preserves_ret]. }
  intros nanos. apply preserves_bind; [|intros ops; apply preserves_ret].
  apply preserves_list_comprehension. intros t. unfold float_truediv.
  destruct (Qeq_bool t 0); [apply preserves_raise|apply preserves_ret].
Qed.

(** Without the profiling step (PyPy) the tracer is not among the
    things the runner touches. *)
Lemma preserves_run_benchmark_pypy (platform : Platform)
  (_format : FormatModule) (fuel : nat) (benchmark_spec : BenchmarkSpec) :
  _pypy platform = true ->
  loader_preserves P (get_loader_dumper benchmark_spec) ->
  preserves P (run_benchmark platform _format fuel benchmark_spec).
Proof.
  intros Hpy Hld. unfold run_benchmark.
  apply preserves_bind_Ok; [apply preserves_create_test_fun|].
  intros test_fun w w1 Hc.
  pose proof (created_test_fun_preserves _ _ _ _ _ Hld Hc) as Hf.
  apply preserves_bind.
  { unfold memory_profiling. rewrite Hpy. apply preserves_ret. }
  intros peak. apply preserves_bind; [apply preserves_collect_samples; exact Hf|].
  intros sampled. apply preserves_normalize.
Qed.

Lemma preserves_run_benchmark (platform : Platform)
  (_format : FormatModule) (fuel : nat) (benchmark_spec : BenchmarkSpec) :
  loader_preserves P (get_loader_dumper benchmark_spec) ->
  preserves P (run_benchmark platform _format fuel benchmark_spec).
Proof.
  intros Hld. unfold run_benchmark.
  apply preserves_bind_Ok; [apply preserves_create_test_fun|].
  intros test_fun w w1 Hc.
  pose proof (created_test_fun_preserves _ _ _ _ _ Hld Hc) as Hf.
  apply preserves_bind; [apply preserves_memory_profiling; exact Hf|].
  intros peak. apply preserves_bind; [apply preserves_collect_samples; exact Hf|].
  intros sampled. apply preserves_normalize.
Qed.

End Frame.

(** ** Sampling *)

Lemma repeat_length {T} (t : timeit.Timer T) (r number : Z) (w w' : World)
  (l : list T) :
  timeit.repeat t r number w = (Ok l, w') -> List.length l = Z.to_nat r.
Proof.
  unfold timeit.repeat. revert w w' l.
  induction (Z.to_nat r) as [|n IH]; intros w w' l; cbn [timeit.repeat_loop].
  - intros H. injection H as <- _. reflexivity.
  - intros H. apply bind_Ok in H. destruct H as (x & w1 & _ & H).
    apply bind_Ok in H. destruct H as (xs & w2 & Hxs & H).
    injection H as <- _. cbn. f_equal. exact (IH _ _ _ Hxs).
Qed.

Lemma autorange_for_found (t : timeit.Timer Q) (i : Z) (js : list Z)
  (w w' : World) (number : Z) (time_taken : Q) :
  timeit.autorange_for t i js w = (Ok (Some (number, time_taken)), w') ->
  exists j, In j js /\ number = i * j.
Proof.
  revert w. induction js as [|j js IH]; intros w; cbn [timeit.autorange_for].
  - discriminate.
  - intros H. apply bind_Ok in H. destruct H as (x & w1 & _ & H).
    destruct (float_ge x timeit.threshold).
    + injection H as <- _ _. exists j. split; [left|]; reflexivity.
    + apply IH in H. destruct H as (j' & Hin & ->).
      exists j'. split; [right; exact Hin|reflexivity].
Qed.

(** The count found by range-finding is 1, 2 or 5 times a power of ten. *)
Lemma autorange_positive (fuel : nat) (t : timeit.Timer Q) (w w' : World)
  (number : Z) (time_taken : Q) :
  timeit.autorange fuel t w = (Ok (number, time_taken), w') -> 1 <= number.
Proof.
  unfold timeit.autorange. assert (Hi : 1 <= 1) by lia. revert Hi.
  generalize 1 at 2 3 as i. revert w.
  induction fuel as [|fuel IH]; intros w i Hi; cbn [timeit.autorange_while].
  - discriminate.
  - intros H. apply bind_Ok in H. destruct H as ([[n x]|] & w1 & Hfor & H).
    + injection H as <- _. apply autorange_for_found in Hfor.
      destruct Hfor as (j & Hin & ->). cbn in Hin.
      destruct Hin as [<-|[<-|[<-|[]]]]; lia.
    + apply IH in H; [exact H|lia].
Qed.

(** Under the test marker the batch size is 1, found without running
    anything. *)
Lemma calibrate_test_mode (fuel : nat) (test_fun : Callable) (setup : M unit)
  (w : World) :
  environ_has "PYTEST_CURRENT_TEST" w = true ->
  calibrate fuel test_fun setup w = (Ok 1, w).
Proof. intros H. unfold calibrate, bind, in_environ. rewrite H. reflexivity. Qed.

Lemma calibrate_Ok (fuel : nat) (test_fun : Callable) (setup : M unit)
  (w w' : World) (batch_size : Z) :
  calibrate fuel test_fun setup w = (Ok batch_size, w') ->
  (environ_has "PYTEST_CURRENT_TEST" w = true /\ batch_size = 1 /\ w' = w)
  \/ (environ_has "PYTEST_CURRENT_TEST" w = false
      /\ exists number time_taken,
           timeit.autorange fuel
             (timeit.mkTimer test_fun setup time.perf_counter float_sub) w
           = (Ok (number, time_taken), w')
           /\ 1 <= number /\ batch_size = number * 5).
Proof.
  unfold calibrate, bind at 1, in_environ.
  destruct (environ_has "PYTEST_CURRENT_TEST" w).
  - intros H. injection H as <- <-. left. auto.
  - intros H. apply bind_Ok in H. destruct H as ([n x] & w1 & Ha & H).
    injection H as <- <-. right. split; [reflexivity|].
    exists n, x. split; [exact Ha|]. split; [|reflexivity].
    exact (autorange_positive _ _ _ _ _ _ Ha).
Qed.

Lemma collect_samples_Ok (fuel : nat) (benchmark_spec : BenchmarkSpec)
  (test_fun : Callable) (w w' : World) (batch_size : Z) (raw_timings : list Z) :
  collect_samples fuel benchmark_spec test_fun w
  = (Ok (batch_size, raw_timings), w') ->
  let setup := setup_of benchmark_spec in
  let timer := timeit.mkTimer test_fun setup time.perf_counter_ns Z.sub in
  exists t w1 w2,
    timeit.timeit timer (get_warmups benchmark_spec) w = (Ok t, w1)
    /\ calibrate fuel test_fun setup w1 = (Ok batch_size, w2)
    /\ timeit.repeat timer (get_iterations benchmark_spec) batch_size w2
       = (Ok raw_timings, w').
Proof.
  intros H. cbv zeta. unfold collect_samples in H.
  apply bind_Ok in H. destruct H as (t & w1 & Hw & H).
  apply bind_Ok in H. destruct H as (b & w2 & Hc & H).
  apply bind_Ok in H. destruct H as (raw & w3 & Hr & H).
  injection H as <- <- <-. exists t, w1, w2. auto.
Qed.

(** C5: the batch size that sampling and normalization use is at least 1.
    It is what [calibrate] returns in the state the warm-up leaves, and
    sampling starts from the state [calibrate] leaves: under the test
    marker it is 1 and nothing has run, otherwise it is 5 times the count
    found by range-finding.  So dividing the raw timings by it raises
    nothing. *)
Theorem batch_size_at_least_one
  (fuel : nat) (benchmark_spec : BenchmarkSpec) (test_fun : Callable)
  (w w' : World) (batch_size : Z) (raw_timings : list Z) :
  collect_samples fuel benchmark_spec test_fun w
  = (Ok (batch_size, raw_timings), w') ->
  1 <= batch_size
  /\ (exists t w1 w2,
        timeit.timeit
          (timeit.mkTimer test_fun (setup_of benchmark_spec)
                          time.perf_counter_ns Z.sub)
          (get_warmups benchmark_spec) w = (Ok t, w1)
        /\ calibrate fuel test_fun (setup_of benchmark_spec) w1
           = (Ok batch_size, w2)
        /\ timeit.repeat
             (timeit.mkTimer test_fun (setup_of benchmark_spec)
                             time.perf_counter_ns Z.sub)
             (get_iterations benchmark_spec) batch_size w2
           = (Ok raw_timings, w')
        /\ (environ_has "PYTEST_CURRENT_TEST" w1 = true ->
            batch_size = 1 /\ w2 = w1)
        /\ (environ_has "PYTEST_CURRENT_TEST" w1 = false ->
            exists number time_taken,
              timeit.autorange fuel
                (timeit.mkTimer test_fun (setup_of benchmark_spec)
                                time.perf_counter float_sub) w1
              = (Ok (number, time_taken), w2)
              /\ 1 <= number /\ batch_size = number * 5))
  /\ list_comprehension (fun t => int_truediv t batch_size) raw_timings w'
     = (Ok (map (fun t => Float.fl (inject_Z t / inject_Z batch_size))
                raw_timings), w').
Proof.
  intros H. apply collect_samples_Ok in H. cbv zeta in H.
  destruct H as (t & w1 & w2 & Hw & Hc & Hr).
  pose proof (calibrate_Ok _ _ _ _ _ _ Hc) as Hb.
  assert (Hge : 1 <= batch_size).
  { destruct Hb as [(_ & -> & _)|(_ & n & x & _ & Hn & ->)]; lia. }
  split; [exact Hge|]. split.
  - exists t, w1, w2. split; [exact Hw|]. split; [exact Hc|].
    split; [exact Hr|]. split.
    + intros Ht. destruct Hb as [(_ & -> & ->)|(Hf & _)];
        [split; reflexivity|congruence].
    + intros Hf. destruct Hb as [(Ht & _)|(_ & Hb)]; [congruence|exact Hb].
  - apply nanos_per_op_run. lia.
Qed.

(** Outside the test harness, with a callable that takes 0.1 s:
    range-finding stops at 5 invocations (2 invocations measure a float
    just below the threshold 0.2), and the batch size is 25. *)
Lemma batch_size_at_least_one_witness :
  collect_samples 10
    (example_spec "buffer" "write" "load_dump" (steady_loader 100000000 64)
                  "ion_binary" true 1 3)
    (steady 100000000 64) production
  = (Ok (25, [2500000000; 2500000000; 2500000000]),
     set_clock_ns 8400001000 production)
  /\ 1 <= 25
  /\ exists number, 1 <= number /\ 25 = number * 5.
Proof.
  assert (E : collect_samples 10
    (example_spec "buffer" "write" "load_dump" (steady_loader 100000000 64)
                  "ion_binary" true 1 3)
    (steady 100000000 64) production
  = (Ok (25, [2500000000; 2500000000; 2500000000]),
     set_clock_ns 8400001000 production)) by (vm_compute; reflexivity).
  split; [exact E|].
  destruct (batch_size_at_least_one _ _ _ _ _ _ _ E)
    as (Hge & (t & w1 & w2 & Hw & _ & _ & _ & Hprod) & _).
  split; [exact Hge|].
  assert (Ew : timeit.timeit
                 (timeit.mkTimer (steady 100000000 64)
                    (setup_of (example_spec "buffer" "write" "load_dump"
                                 (steady_loader 100000000 64) "ion_binary"
                                 true 1 3))
                    time.perf_counter_ns Z.sub) 1 production
               = (Ok 100000000, set_clock_ns 100001000 production))
    by (vm_compute; reflexivity).
  change (get_warmups _) with 1 in Hw.
  rewrite Ew in Hw. injection Hw as _ <-.
  destruct (Hprod eq_refl) as (number & time_taken & _ & Hn & Hb).
  exists number. split; assumption.
Defined.

(** C4: in a returned result, sample [i] of [nanos_per_op] is raw timing
    [i] divided by the batch size, sample [i] of [ops_per_second] is 1e9
    divided by that, and their product is 1e9 up to the rounding of the
    floats: the exact product within the relative error 2^-53, the float
    product within 2^-53 * (2 + 2^-53). *)
Theorem normalization_consistent
  (platform : Platform) (_format : FormatModule) (fuel : nat)
  (benchmark_spec : BenchmarkSpec) (w w' : World) (r : BenchmarkResult) :
  run_benchmark platform _format fuel benchmark_spec w = (Ok r, w') ->
  exists test_fun w1 peak w2 batch_size raw_timings,
    _create_test_fun _format benchmark_spec w = (Ok test_fun, w1)
    /\ memory_profiling platform test_fun w1 = (Ok peak, w2)
    /\ collect_samples fuel benchmark_spec test_fun w2
       = (Ok (batch_size, raw_timings), w')
    /\ forall i t,
         nth_error raw_timings i = Some t ->
         exists x y,
           nth_error (samples (nanos_per_op r)) i = Some x
           /\ nth_error (samples (ops_per_second r)) i = Some y
           /\ x = Float.fl (inject_Z t / inject_Z batch_size)
           /\ y = Float.fl (one_billion / x)
           /\ (Qabs (y * x - one_billion) <= one_billion * Float.u)%Q
           /\ (Qabs (float_mul y x - one_billion)
               <= one_billion * (Float.u * (2 + Float.u)))%Q.
Proof.
  intros H. apply run_benchmark_Ok in H.
  destruct H as (test_fun & w1 & peak & w2 & b & raw & H1 & H2 & H3 & H4).
  exists test_fun, w1, peak, w2, b, raw. repeat (split; [assumption|]).
  apply normalize_Ok in H4. destruct H4 as (Hn & Ho & Hnz & _ & _).
  intros i t Hi.
  set (x := Float.fl (inject_Z t / inject_Z b)).
  assert (Hx : nth_error (samples (nanos_per_op r)) i = Some x).
  { rewrite Hn, nth_error_map, Hi. reflexivity. }
  exists x, (Float.fl (one_billion / x)).
  split; [exact Hx|]. split.
  { rewrite Ho, nth_error_map, Hx. reflexivity. }
  split; [reflexivity|]. split; [reflexivity|].
  assert (Hx0 : ~ (x == 0)%Q).
  { rewrite Forall_forall in Hnz. apply Hnz. eapply nth_error_In. exact Hx. }
  split.
  - exact (quotient_product_close one_billion x Hx0).
  - exact (float_product_close one_billion x Hx0).
Qed.

Lemma normalization_consistent_witness :
  let r := BenchmarkResult__init__
             [300; 300; 300; 300; 300]%Q
             [7158278826666667 # 2147483648; 7158278826666667 # 2147483648;
              7158278826666667 # 2147483648; 7158278826666667 # 2147483648;
              7158278826666667 # 2147483648]%Q
             (Some 64) in
  run_benchmark cpython example_format 10
    (example_spec "buffer" "read" "load_dump" (steady_loader 300 64)
                  "ion_binary" true 1 5) under_pytest
  = (Ok r, set_clock_ns 3100 (set_open_files 4 [] under_pytest))
  /\ exists batch_size raw_timings,
       forall i t,
         nth_error raw_timings i = Some t ->
         exists x y,
           nth_error (samples (nanos_per_op r)) i = Some x
           /\ nth_error (samples (ops_per_second r)) i = Some y
           /\ x = Float.fl (inject_Z t / inject_Z batch_size)
           /\ y = Float.fl (one_billion / x)
           /\ (Qabs (y * x - one_billion) <= one_billion * Float.u)%Q
           /\ (Qabs (float_mul y x - one_billion)
               <= one_billion * (Float.u * (2 + Float.u)))%Q.
Proof.
  intros r.
  assert (E : run_benchmark cpython example_format 10
                (example_spec "buffer" "read" "load_dump" (steady_loader 300 64)
                              "ion_binary" true 1 5) under_pytest
              = (Ok r, set_clock_ns 3100 (set_open_files 4 [] under_pytest)))
    by (vm_compute; reflexivity).
  split; [exact E|].
  destruct (normalization_consistent _ _ _ _ _ _ _ E)
    as (_ & _ & _ & _ & b & raw & _ & _ & _ & H).
  exists b, raw. exact H.
Defined.

(** ** Test mode *)

Lemma environ_has_ext (key : string) (w1 w2 : World) :
  environ w1 = environ w2 -> environ_has key w1 = environ_has key w2.
Proof. unfold environ_has. intros ->. reflexivity. Qed.

Lemma collect_samples_run (fuel : nat) (benchmark_spec : BenchmarkSpec)
  (test_fun : Callable) (w w1 w2 w' : World) (t batch_size : Z)
  (raw_timings : list Z) :
  let setup := setup_of benchmark_spec in
  let timer := timeit.mkTimer test_fun setup time.perf_counter_ns Z.sub in
  timeit.timeit timer (get_warmups benchmark_spec) w = (Ok t, w1) ->
  calibrate fuel test_fun setup w1 = (Ok batch_size, w2) ->
  timeit.repeat timer (get_iterations benchmark_spec) batch_size w2
  = (Ok raw_timings, w') ->
  collect_samples fuel benchmark_spec test_fun w
  = (Ok (batch_size, raw_timings), w').
Proof.
  cbv zeta. intros Hw Hc Hr. unfold collect_samples.
  rewrite (bind_run _ _ _ _ _ Hw), (bind_run _ _ _ _ _ Hc),
    (bind_run _ _ _ _ _ Hr). reflexivity.
Qed.

(** C6: when PYTEST_CURRENT_TEST is in the environment (and the
    loader/dumper leaves the environment alone), the batch size is 1 and
    range-finding does not run (the same result comes out with no fuel for
    it); a returned result has as many samples in [nanos_per_op] and in
    [ops_per_second] as there are raw timings, the iteration count of the
    specification. *)
Theorem test_mode_sample_count
  (platform : Platform) (_format : FormatModule) (fuel : nat)
  (benchmark_spec : BenchmarkSpec) (w w' : World) (r : BenchmarkResult) :
  environ_has "PYTEST_CURRENT_TEST" w = true ->
  loader_preserves (fun w0 => environ w0 = environ w)
                   (get_loader_dumper benchmark_spec) ->
  run_benchmark platform _format fuel benchmark_spec w = (Ok r, w') ->
  exists test_fun w1 peak w2 raw_timings,
    _create_test_fun _format benchmark_spec w = (Ok test_fun, w1)
    /\ memory_profiling platform test_fun w1 = (Ok peak, w2)
    /\ collect_samples fuel benchmark_spec test_fun w2
       = (Ok (1, raw_timings), w')
    /\ run_benchmark platform _format 0 benchmark_spec w = (Ok r, w')
    /\ List.length raw_timings = Z.to_nat (get_iterations benchmark_spec)
    /\ List.length (samples (nanos_per_op r)) = List.length raw_timings
    /\ List.length (samples (ops_per_second r)) = List.length raw_timings
    /\ (0 <= get_iterations benchmark_spec ->
        Z.of_nat (List.length (samples (nanos_per_op r)))
        = get_iterations benchmark_spec
        /\ Z.of_nat (List.length (samples (ops_per_second r)))
           = get_iterations benchmark_spec).
Proof.
  intros Hm Hld H. apply run_benchmark_Ok in H.
  destruct H as (test_fun & w1 & peak & w2 & b & raw & H1 & H2 & H3 & H4).
  set (P := fun w0 => environ w0 = environ w) in *.
  assert (P_gc : forall b w0, P w0 -> P (set_gc_enabled b w0)) by (intros; assumption).
  assert (P_files : forall n l w0, P w0 -> P (set_open_files n l w0))
    by (intros; assumption).
  assert (P_traced : forall t c p w0, P w0 -> P (set_traced t c p w0))
    by (intros; assumption).
  assert (Hf : preserves P test_fun)
    by exact (created_test_fun_preserves P P_files _ _ _ _ _ Hld H1).
  assert (Pw1 : P w1).
  { pose proof (preserves_create_test_fun P P_files _format benchmark_spec w
                  eq_refl) as K.
    rewrite H1 in K. exact K. }
  assert (Pw2 : P w2).
  { pose proof (preserves_memory_profiling P P_gc P_traced platform test_fun
                  Hf w1 Pw1) as K.
    rewrite H2 in K. exact K. }
  pose proof (collect_samples_Ok _ _ _ _ _ _ _ H3) as (t & w3 & w4 & Hw & Hc & Hr).
  assert (Pw3 : P w3).
  { assert (Ht : timer_preserves P
                   (timeit.mkTimer test_fun (setup_of benchmark_spec)
                                   time.perf_counter_ns Z.sub)).
    { split; [exact Hf|]. split;
        [apply preserves_setup_of; exact P_gc|apply preserves_perf_counter_ns]. }
    pose proof (preserves_timeit P P_gc _ (get_warmups benchmark_spec) Ht w2 Pw2) as K.
    rewrite Hw in K. exact K. }
  assert (Hm3 : environ_has "PYTEST_CURRENT_TEST" w3 = true).
  { rewrite (environ_has_ext _ w3 w Pw3). exact Hm. }
  rewrite (calibrate_test_mode fuel _ _ w3 Hm3) in Hc.
  injection Hc as <- <-.
  pose proof (normalize_Ok _ _ _ _ _ _ H4) as (Hn & Ho & _ & _ & _).
  pose proof (repeat_length _ _ _ _ _ _ Hr) as Hlen.
  assert (Ln : List.length (samples (nanos_per_op r)) = List.length raw)
    by (rewrite Hn; apply length_map).
  assert (Lo : List.length (samples (ops_per_second r)) = List.length raw)
    by (rewrite Ho, length_map; exact Ln).
  exists test_fun, w1, peak, w2, raw.
  split; [exact H1|]. split; [exact H2|]. split; [exact H3|]. split.
  { unfold run_benchmark.
    rewrite (bind_run _ _ _ _ _ H1), (bind_run _ _ _ _ _ H2).
    rewrite (bind_run _ _ _ _ _
               (collect_samples_run 0 _ _ _ _ _ _ _ _ _ Hw
                  (calibrate_test_mode 0 _ _ w3 Hm3) Hr)).
    exact H4. }
  split; [exact Hlen|]. split; [exact Ln|]. split; [exact Lo|].
  intros Hpos. rewrite Lo, Ln, Hlen. split; apply Z2Nat.id; exact Hpos.
Qed.

Lemma steady_preserves_environ (E : list (string * string)) (d : Z) (a : N) :
  preserves (fun w0 => environ w0 = E) (steady d a).
Proof.
  intros [g [|] c p t e f n o] H; exact H.
Qed.

Lemma steady_loader_preserves_environ (E : list (string * string)) (d : Z) (a : N) :
  loader_preserves (fun w0 => environ w0 = E) (steady_loader d a).
Proof. repeat split; intros; apply steady_preserves_environ. Qed.

Lemma test_mode_sample_count_witness :
  let s := example_spec "buffer" "read" "load_dump" (steady_loader 300 64)
                        "ion_binary" true 1 5 in
  let r := BenchmarkResult__init__
             [300; 300; 300; 300; 300]%Q
             [7158278826666667 # 2147483648; 7158278826666667 # 2147483648;
              7158278826666667 # 2147483648; 7158278826666667 # 2147483648;
              7158278826666667 # 2147483648]%Q
             (Some 64) in
  environ_has "PYTEST_CURRENT_TEST" under_pytest = true
  /\ run_benchmark cpython example_format 10 s under_pytest
     = (Ok r, set_clock_ns 3100 (set_open_files 4 [] under_pytest))
  /\ Z.of_nat (List.length (samples (nanos_per_op r))) = get_iterations s
  /\ Z.of_nat (List.length (samples (ops_per_second r))) = get_iterations s.
Proof.
  intros s r.
  assert (E : run_benchmark cpython example_format 10 s under_pytest
              = (Ok r, set_clock_ns 3100 (set_open_files 4 [] under_pytest)))
    by (vm_compute; reflexivity).
  split; [reflexivity|]. split; [exact E|].
  destruct (test_mode_sample_count cpython example_format 10 s under_pytest _ r
              eq_refl (steady_loader_preserves_environ _ 300 64) E)
    as (test_fun & w1 & peak & w2 & raw & _ & _ & _ & _ & _ & _ & _ & H).
  apply H. discriminate.
Defined.

(** ** The measurement and the collector flag *)

Lemma memory_profiling_nonneg (platform : Platform) (test_fun : Callable)
  (w w' : World) (p : Z) :
  memory_profiling platform test_fun w = (Ok (Some p), w') -> 0 <= p.
Proof.
  unfold memory_profiling. destruct (_pypy platform); [discriminate|].
  intros H. apply bind_Ok in H. destruct H as (q & w1 & Hq & H).
  injection H as -> _. apply trace_memory_allocation_Ok in Hq.
  destruct Hq as (v & w2 & _ & -> & _). apply N2Z.is_nonneg.
Qed.

(** C7: the peak in a returned result is the one of the profiling step,
    which does not read the collector flag of the specification: it is
    non-negative, the same for both values of the flag, and the profiler
    itself gives the same outcome and the same final state whether the
    collector was on or off when it was called. *)
Theorem peak_memory_independent_of_gc_flag
  (platform : Platform) (_format : FormatModule) (fuel : nat)
  (benchmark_spec : BenchmarkSpec) (flag : bool) (w w' : World)
  (r : BenchmarkResult) :
  run_benchmark platform _format fuel
    (with_py_gc_disabled flag benchmark_spec) w = (Ok r, w') ->
  (forall p, peak_memory_usage r = Some p -> 0 <= p)
  /\ (forall flag' r' w'',
        run_benchmark platform _format fuel
          (with_py_gc_disabled flag' benchmark_spec) w = (Ok r', w'') ->
        peak_memory_usage r' = peak_memory_usage r)
  /\ (forall flag',
        bind (_create_test_fun _format (with_py_gc_disabled flag' benchmark_spec))
             (memory_profiling platform) w
        = bind (_create_test_fun _format benchmark_spec)
               (memory_profiling platform) w)
  /\ (forall test_fn collector w0,
        _trace_memory_allocation test_fn (set_gc_enabled collector w0)
        = _trace_memory_allocation test_fn w0).
Proof.
  intros H. apply run_benchmark_Ok in H.
  destruct H as (test_fun & w1 & peak & w2 & b & raw & H1 & H2 & H3 & H4).
  apply normalize_Ok in H4. destruct H4 as (_ & _ & _ & Hp & _).
  split; [|split; [|split]].
  - intros p E. rewrite Hp in E. rewrite E in H2.
    exact (memory_profiling_nonneg _ _ _ _ _ H2).
  - intros flag' r' w'' H'. apply run_benchmark_Ok in H'.
    destruct H' as (test_fun' & w1' & peak' & w2' & b' & raw' & H1' & H2' & H3' & H4').
    apply normalize_Ok in H4'. destruct H4' as (_ & _ & _ & Hp' & _).
    change (_create_test_fun _format (with_py_gc_disabled flag' benchmark_spec))
      with (_create_test_fun _format (with_py_gc_disabled flag benchmark_spec)) in H1'.
    rewrite H1 in H1'. injection H1' as <- <-.
    rewrite H2 in H2'. injection H2' as <- _. congruence.
  - intros flag'. reflexivity.
  - intros test_fn collector w0. reflexivity.
Qed.

Lemma peak_memory_independent_of_gc_flag_witness :
  let s := example_spec "buffer" "write" "load_dump" (steady_loader 300 64)
                        "json" false 1 2 in
  let r := BenchmarkResult__init__
             [300; 300]%Q
             [7158278826666667 # 2147483648; 7158278826666667 # 2147483648]%Q
             (Some 64) in
  run_benchmark cpython example_format 10 (with_py_gc_disabled true s) under_pytest
  = (Ok r, set_clock_ns 2200 under_pytest)
  /\ run_benchmark cpython example_format 10 (with_py_gc_disabled false s) under_pytest
     = (Ok r, set_clock_ns 2200 under_pytest)
  /\ 0 <= 64.
Proof.
  intros s r.
  assert (E1 : run_benchmark cpython example_format 10
                 (with_py_gc_disabled true s) under_pytest
               = (Ok r, set_clock_ns 2200 under_pytest))
    by (vm_compute; reflexivity).
  assert (E2 : run_benchmark cpython example_format 10
                 (with_py_gc_disabled false s) under_pytest
               = (Ok r, set_clock_ns 2200 under_pytest))
    by (vm_compute; reflexivity).
  split; [exact E1|]. split; [exact E2|].
  exact (proj1 (peak_memory_independent_of_gc_flag _ _ _ _ _ _ _ _ E1) 64 eq_refl).
Defined.

(** ** Runtimes without the allocation tracer *)

(** C8: on PyPy the profiling step is skipped: it returns [None] without
    running the callable or touching the process; a returned result has
    no peak memory ([None], not zero), and the whole run leaves the
    tracer as it found it. *)
Theorem pypy_peak_memory_absent
  (platform : Platform) (_format : FormatModule) (fuel : nat)
  (benchmark_spec : BenchmarkSpec) (w : World) :
  python_implementation platform = "PyPy" ->
  let untraced := fun w0 => tracing w0 = tracing w
                            /\ traced_current w0 = traced_current w
                            /\ traced_peak w0 = traced_peak w in
  (forall test_fun w0, memory_profiling platform test_fun w0 = (Ok None, w0))
  /\ (forall r w',
        run_benchmark platform _format fuel benchmark_spec w = (Ok r, w') ->
        peak_memory_usage r = None)
  /\ (loader_preserves untraced (get_loader_dumper benchmark_spec) ->
      untraced (snd (run_benchmark platform _format fuel benchmark_spec w))).
Proof.
  intros Hpy untraced.
  assert (Hp : _pypy platform = true)
    by (unfold _pypy; rewrite Hpy; reflexivity).
  assert (Hm : forall test_fun w0,
             memory_profiling platform test_fun w0 = (Ok None, w0))
    by (intros; unfold memory_profiling; rewrite Hp; reflexivity).
  split; [exact Hm|]. split.
  - intros r w' H. apply run_benchmark_Ok in H.
    destruct H as (test_fun & w1 & peak & w2 & b & raw & _ & H2 & _ & H4).
    rewrite Hm in H2. injection H2 as <- _.
    apply normalize_Ok in H4. destruct H4 as (_ & _ & _ & Hpk & _). exact Hpk.
  - intros Hld.
    apply (preserves_run_benchmark_pypy untraced); try assumption.
    + intros b w0 H0. exact H0.
    + intros n l w0 H0. exact H0.
    + unfold untraced. auto.
Qed.

Lemma pypy_peak_memory_absent_witness :
  let s := example_spec "buffer" "write" "load_dump" (steady_loader 300 64)
                        "json" false 1 2 in
  let r := BenchmarkResult__init__
             [300; 300]%Q
             [7158278826666667 # 2147483648; 7158278826666667 # 2147483648]%Q
             None in
  python_implementation pypy = "PyPy"
  /\ run_benchmark pypy example_format 10 s under_pytest
     = (Ok r, set_clock_ns 1900 under_pytest)
  /\ peak_memory_usage r = None.
Proof.
  intros s r.
  assert (E : run_benchmark pypy example_format 10 s under_pytest
              = (Ok r, set_clock_ns 1900 under_pytest))
    by (vm_compute; reflexivity).
  split; [reflexivity|]. split; [exact E|].
  exact (proj1 (proj2 (pypy_peak_memory_absent pypy example_format 10 s
                         under_pytest eq_refl)) r _ E).
Defined.

(** ** The collector and the tracer at the exits of a run *)

(** Every exit of a run other than an exception of the profiled
    invocation is in the known state. *)
Lemma exits_of_preserves {A} (c : M A) :
  preserves restored c -> exits_restored c.
Proof. intros H w Hw _. exact (H w Hw). Qed.

Lemma exits_bind_Ok {A B} (c : M A) (k : A -> M B) :
  exits_restored c ->
  (forall a w w1, c w = (Ok a, w1) -> exits_restored (k a)) ->
  exits_restored (bind c k).
Proof.
  intros Hc Hk w Hw. specialize (Hc w Hw). unfold bind.
  destruct (c w) as [[a|e|] w1] eqn:E; cbn [fst snd] in *.
  - apply (Hk a w w1 E). apply Hc. discriminate.
  - intros _. apply Hc. discriminate.
  - intros N. contradiction.
Qed.

Lemma exits_bind {A B} (c : M A) (k : A -> M B) :
  exits_restored c -> (forall a, exits_restored (k a)) ->
  exits_restored (bind c k).
Proof. intros Hc Hk. apply exits_bind_Ok; [exact Hc|]. intros a _ _ _. apply Hk. Qed.

Lemma exits_ret {A} (a : A) : exits_restored (ret a).
Proof. intros w Hw _. exact Hw. Qed.

Lemma restored_gc (b : bool) (w : World) :
  tracing w = false -> tracing (set_gc_enabled b w) = false.
Proof. intros H. exact H. Qed.

Lemma restored_files (n : nat) (l : list FileObj) (w : World) :
  restored w -> restored (set_open_files n l w).
Proof. intros H. exact H. Qed.

(** [Timer.timeit] switches the collector on again when it found it on,
    on return and on an exception of the statement alike. *)
Lemma exits_timeit {T} (t : timeit.Timer T) (number : Z) :
  timer_preserves (fun w => tracing w = false) t ->
  exits_restored (timeit.timeit t number).
Proof.
  intros Ht w [Hg Htr] Hexit. split.
  - revert Hexit. unfold timeit.timeit, bind, gc.isenabled, gc.disable.
    rewrite Hg. unfold try_finally, gc.enable.
    destruct (timeit.inner t number (set_gc_enabled false w)) as [[x|e|] w1];
      cbn; [reflexivity|reflexivity|intros N; contradiction].
  - exact (preserves_timeit (fun w0 => tracing w0 = false) restored_gc
             t number Ht w Htr).
Qed.

Lemma exits_repeat {T} (t : timeit.Timer T) (r number : Z) :
  timer_preserves (fun w => tracing w = false) t ->
  exits_restored (timeit.repeat t r number).
Proof.
  intros Ht. unfold timeit.repeat.
  induction (Z.to_nat r) as [|n IH]; cbn [timeit.repeat_loop].
  - apply exits_ret.
  - apply exits_bind; [apply exits_timeit; exact Ht|]. intros x.
    apply exits_bind; [exact IH|]. intros xs. apply exits_ret.
Qed.

Lemma exits_autorange (fuel : nat) (t : timeit.Timer Q) :
  timer_preserves (fun w => tracing w = false) t ->
  exits_restored (timeit.autorange fuel t).
Proof.
  intros Ht. unfold timeit.autorange. generalize 1.
  induction fuel as [|fuel IH]; intros i; cbn [timeit.autorange_while].
  - intros w _ N. contradiction.
  - apply exits_bind.
    + induction [1; 2; 5] as [|j js IHj]; cbn [timeit.autorange_for].
      * apply exits_ret.
      * apply exits_bind; [apply exits_timeit; exact Ht|].
        intros time_taken.
        destruct (float_ge time_taken timeit.threshold);
          [apply exits_ret|exact IHj].
    + intros [found|]; [apply exits_ret|apply IH].
Qed.

Lemma exits_collect_samples (fuel : nat) (benchmark_spec : BenchmarkSpec)
  (test_fun : Callable) :
  preserves (fun w => tracing w = false) test_fun ->
  exits_restored (collect_samples fuel benchmark_spec test_fun).
Proof.
  intros Hf. unfold collect_samples.
  assert (Hs : preserves (fun w => tracing w = false) (setup_of benchmark_spec))
    by (apply preserves_setup_of; exact restored_gc).
  apply exits_bind.
  { apply exits_timeit. split; [exact Hf|]. split; [exact Hs|].
    apply preserves_perf_counter_ns. }
  intros _. apply exits_bind.
  { unfold calibrate. apply exits_bind.
    - apply exits_of_preserves. apply preserves_in_environ.
    - intros [|]; [apply exits_ret|].
      apply exits_bind; [|intros found; apply exits_ret].
      apply exits_autorange. split; [exact Hf|]. split; [exact Hs|].
      apply preserves_perf_counter. }
  intros batch_size. apply exits_bind; [|intros raw; apply exits_ret].
  apply exits_repeat. split; [exact Hf|]. split; [exact Hs|].
  apply preserves_perf_counter_ns.
Qed.

Lemma run_benchmark_exit_state
  (platform : Platform) (_format : FormatModule) (fuel : nat)
  (benchmark_spec : BenchmarkSpec) (w : World) :
  restored w ->
  loader_preserves (fun w0 => tracing w0 = false)
                   (get_loader_dumper benchmark_spec) ->
  let exit := run_benchmark platform _format fuel benchmark_spec w in
  fst exit <> OutOfFuel ->
  restored (snd exit)
  \/ (_pypy platform = false
      /\ exists test_fun w1 e,
           _create_test_fun _format benchmark_spec w = (Ok test_fun, w1)
           /\ _trace_memory_allocation test_fun w1 = (Raise e, snd exit)
           /\ fst exit = Raise e).
Proof.
  intros Hw Hld exit. subst exit.
  destruct (run_benchmark platform _format fuel benchmark_spec w) as [o w']
    eqn:E.
  cbn [fst snd]. intros Hexit. unfold run_benchmark in E.
  pose proof (preserves_create_test_fun restored restored_files
                _format benchmark_spec w Hw) as Hw1.
  destruct (_create_test_fun _format benchmark_spec w) as [[test_fun|e|] w1]
    eqn:Hc; cbn [snd] in Hw1.
  2: { rewrite (bind_Raise _ _ _ _ _ Hc) in E. injection E as <- <-.
       left. exact Hw1. }
  2: { unfold bind in E. rewrite Hc in E. injection E as <- <-.
       contradiction. }
  rewrite (bind_run _ _ _ _ _ Hc) in E.
  assert (Hf : preserves (fun w0 => tracing w0 = false) test_fun).
  { refine (created_test_fun_preserves _ _ _ _ _ _ _ Hld Hc).
    intros n l w0 H0. exact H0. }
  assert (Hrest : forall peak, exits_restored
            (sampled <- collect_samples fuel benchmark_spec test_fun ;;
             normalize (fst sampled) (snd sampled) peak)).
  { intros peak. apply exits_bind; [apply exits_collect_samples; exact Hf|].
    intros sampled. apply exits_of_preserves. apply preserves_normalize. }
  unfold memory_profiling in E. destruct (_pypy platform) eqn:Hpy.
  - left. specialize (Hrest None w1 Hw1).
    change (bind (ret None) ?k w1) with (k None w1) in E.
    rewrite E in Hrest. exact (Hrest Hexit).
  - destruct (_trace_memory_allocation test_fun w1) as [[p|e|] w2] eqn:Htr.
    + left. specialize (Hrest (Some p) w2).
      unfold bind at 1 2 in E. rewrite Htr in E. cbn [ret] in E.
      rewrite E in Hrest. apply Hrest; [|exact Hexit].
      apply trace_memory_allocation_Ok in Htr.
      destruct Htr as (v & w3 & _ & _ & ->). split; [reflexivity|].
      cbn. destruct (tracing w3) eqn:T; [reflexivity|exact T].
    + right. split; [reflexivity|].
      unfold bind at 1 2 in E. rewrite Htr in E. injection E as <- <-.
      exists test_fun, w1, e. auto.
    + unfold bind at 1 2 in E. rewrite Htr in E. injection E as <- <-.
      contradiction.
Qed.

(** C2: a run whose callable raises in the profiling step ends with the
    collector disabled and the tracer running, in a process that had the
    collector enabled and the tracer stopped. *)
Theorem run_benchmark_raise_not_restored :
  let s := example_spec "buffer" "read" "load_dump" failing_loader
                        "ion_binary" true 1 5 in
  let exit := run_benchmark cpython example_format 10 s production in
  gc_enabled production = true
  /\ tracing production = false
  /\ fst exit = Raise (Exception "malformed input")
  /\ gc_enabled (snd exit) = false
  /\ tracing (snd exit) = true.
Proof. vm_compute. repeat split. Qed.

(** * Further properties of the runner *)

(** ** The factory: the other combinations *)

Lemma filter_fresh (w : World) :
  files_wf w ->
  filter (fun g => negb (Nat.eqb (fileno g) (next_fileno w))) (open_files w)
  = open_files w.
Proof.
  unfold files_wf. induction 1 as [|g l Hg _ IH]; cbn; [reflexivity|].
  rewrite IH. destruct (Nat.eqb_spec (fileno g) (next_fileno w)); [lia|reflexivity].
Qed.

(** The setup of buffer/read, run on a state with the input file. *)
Lemma read_input_run (path : string) (content : list byte) (w : World) :
  lookup path (files w) = Some content ->
  with_ (py_open path "rb") file_read w
  = (Ok content,
     set_open_files (S (next_fileno w))
       (filter (fun g => negb (Nat.eqb (fileno g) (next_fileno w))) (open_files w))
       w).
Proof.
  intros H. unfold with_, bind, py_open. rewrite H.
  unfold try_finally, file_read. cbn. rewrite H. cbn.
  rewrite Nat.eqb_refl. reflexivity.
Qed.

(** X1: for buffer/read the factory opens the input file once, reads all
    of it, closes it, and returns the callable [loads(buffer)] on that
    content; it leaves no file open.  When the input file does not exist
    the factory raises [FileNotFoundError] with the process untouched, and
    so does [run_benchmark]. *)
Theorem create_test_fun_buffer_read
  (platform : Platform) (_format : FormatModule) (fuel : nat)
  (benchmark_spec : BenchmarkSpec) (w : World) :
  let loader_dumper := get_loader_dumper benchmark_spec in
  let path := get_input_file benchmark_spec in
  get_io_type benchmark_spec = "buffer" ->
  get_command benchmark_spec = "read" ->
  get_api benchmark_spec = "load_dump" ->
  (forall content,
     lookup path (files w) = Some content -> files_wf w ->
     _create_test_fun _format benchmark_spec w
     = (Ok (loads loader_dumper content),
        set_open_files (S (next_fileno w)) (open_files w) w))
  /\ (lookup path (files w) = None ->
      _create_test_fun _format benchmark_spec w
      = (Raise (FileNotFoundError path), w)
      /\ run_benchmark platform _format fuel benchmark_spec w
         = (Raise (FileNotFoundError path), w)).
Proof.
  intros loader_dumper path Hio Hcmd Hapi.
  assert (E : _create_test_fun _format benchmark_spec w
              = bind (with_ (py_open path "rb") file_read)
                     (fun buffer => ret (loads loader_dumper buffer)) w).
  { unfold _create_test_fun. rewrite Hio, Hcmd, Hapi. reflexivity. }
  split.
  - intros content Hl Hwf. rewrite E.
    rewrite (bind_run _ _ _ _ _ (read_input_run path content w Hl)).
    rewrite (filter_fresh w Hwf). reflexivity.
  - intros Hl.
    assert (E' : _create_test_fun _format benchmark_spec w
                 = (Raise (FileNotFoundError path), w)).
    { rewrite E. unfold bind, with_, bind, py_open. rewrite Hl. reflexivity. }
    split; [exact E'|]. unfold run_benchmark. apply bind_Raise. exact E'.
Qed.

Lemma create_test_fun_buffer_read_witness :
  let s := example_spec "buffer" "read" "load_dump" (steady_loader 300 64)
                        "ion_binary" false 1 5 in
  (get_io_type s = "buffer" /\ get_command s = "read" /\ get_api s = "load_dump")
  /\ lookup (get_input_file s) (files production) = Some [x01; x02; x03]
  /\ files_wf production
  /\ _create_test_fun example_format s production
     = (Ok (loads (steady_loader 300 64) [x01; x02; x03]),
        set_open_files 4 [] production).
Proof.
  intros s.
  assert (Hwf : files_wf production) by constructor.
  split; [repeat split|]. split; [reflexivity|]. split; [exact Hwf|].
  exact (proj1 (create_test_fun_buffer_read cpython example_format 10 s
                  production eq_refl eq_refl eq_refl)
               [x01; x02; x03] eq_refl Hwf).
Defined.

(** X2: for file/read the factory does no I/O (it returns even when the
    input file does not exist); the callable opens the input file for
    binary reading on every invocation, hands it to [load] and closes it
    whether [load] returns or raises; when the file does not exist the
    callable raises [FileNotFoundError] and opens nothing. *)
Theorem create_test_fun_file_read
  (_format : FormatModule) (benchmark_spec : BenchmarkSpec) :
  let loader_dumper := get_loader_dumper benchmark_spec in
  let data_file := get_input_file benchmark_spec in
  let test_fn := with_ (py_open data_file "rb") (load loader_dumper) in
  get_io_type benchmark_spec = "file" ->
  get_command benchmark_spec = "read" ->
  get_api benchmark_spec = "load_dump" ->
  (forall w, _create_test_fun _format benchmark_spec w = (Ok test_fn, w))
  /\ (forall w1,
        lookup data_file (files w1) = None ->
        test_fn w1 = (Raise (FileNotFoundError data_file), w1))
  /\ (forall w1 content,
        lookup data_file (files w1) = Some content ->
        let f := mkFile (next_fileno w1) (Some data_file) "rb" in
        let opened := set_open_files (S (next_fileno w1)) (f :: open_files w1) w1 in
        forall o w2,
          load loader_dumper f opened = (o, w2) ->
          o <> OutOfFuel ->
          test_fn w1 = (o, snd (file_close f w2))
          /\ is_open f (snd (file_close f w2)) = false).
Proof.
  intros loader_dumper data_file test_fn Hio Hcmd Hapi.
  split; [|split].
  - intros w. unfold _create_test_fun. rewrite Hio, Hcmd, Hapi. reflexivity.
  - intros w1 Hl. unfold test_fn, with_, bind, py_open. rewrite Hl. reflexivity.
  - intros w1 content Hl f opened o w2 Hload Ho.
    split; [|apply closed_not_open].
    unfold test_fn. eapply with_run; [|exact Hload|exact Ho].
    unfold py_open. rewrite Hl. reflexivity.
Qed.

Lemma create_test_fun_file_read_witness :
  let s := mkBenchmarkSpec "file" "read" "load_dump" failing_loader
             "ion_binary" "missing.ion" PyNone false 1 5 in
  (get_io_type s = "file" /\ get_command s = "read" /\ get_api s = "load_dump")
  /\ _create_test_fun example_format s production
     = (Ok (with_ (py_open "missing.ion" "rb") (load failing_loader)), production)
  /\ with_ (py_open "missing.ion" "rb") (load failing_loader) production
     = (Raise (FileNotFoundError "missing.ion"), production).
Proof.
  intros s.
  pose proof (create_test_fun_file_read example_format s
                eq_refl eq_refl eq_refl) as (Hc & Hm & _).
  split; [repeat split|]. split; [exact (Hc production)|].
  exact (Hm production eq_refl).
Defined.

Lemma create_test_fun_state (_format : FormatModule)
  (benchmark_spec : BenchmarkSpec) (w : World) :
  let w1 := snd (_create_test_fun _format benchmark_spec w) in
  w1 = w
  \/ w1 = set_open_files (S (next_fileno w))
            (filter (fun g => negb (Nat.eqb (fileno g) (next_fileno w)))
                    (open_files w)) w.
Proof.
  cbv zeta. unfold _create_test_fun.
  repeat match goal with
         | |- context [if ?b then _ else _] => destruct b
         end; try (left; reflexivity).
  destruct (lookup (get_input_file benchmark_spec) (files w)) as [content|] eqn:E.
  - right. rewrite (bind_run _ _ _ _ _ (read_input_run _ content w E)). reflexivity.
  - left. unfold bind, with_, bind, py_open. rewrite E. reflexivity.
Qed.

(** X3: whatever the specification, the factory never runs the
    loader/dumper and switches nothing: the state it leaves is the same
    for any loader/dumper, with the collector and the tracer switched as
    before, the environment and the file contents as before, and the same
    files open. *)
Theorem create_test_fun_setup_only
  (_format : FormatModule) (benchmark_spec : BenchmarkSpec) (w : World) :
  let w1 := snd (_create_test_fun _format benchmark_spec w) in
  gc_enabled w1 = gc_enabled w
  /\ tracing w1 = tracing w
  /\ environ w1 = environ w
  /\ files w1 = files w
  /\ (files_wf w -> open_files w1 = open_files w /\ files_wf w1)
  /\ forall other,
       snd (_create_test_fun _format (with_loader_dumper other benchmark_spec) w)
       = w1.
Proof.
  cbv zeta.
  assert (Hwf : forall w1,
             w1 = w
             \/ w1 = set_open_files (S (next_fileno w))
                       (filter (fun g => negb (Nat.eqb (fileno g) (next_fileno w)))
                               (open_files w)) w ->
             files_wf w -> open_files w1 = open_files w /\ files_wf w1).
  { intros w1 [->| ->] H; [split; [reflexivity|exact H]|].
    rewrite (filter_fresh w H). split; [reflexivity|].
    unfold files_wf in *. cbn [open_files next_fileno set_open_files].
    eapply Forall_impl; [|exact H]. cbn beta. intros g Hg. lia. }
  pose proof (create_test_fun_state _format benchmark_spec w) as Hs.
  cbv zeta in Hs.
  repeat split;
    try (destruct Hs as [-> | ->]; reflexivity);
    try (apply (Hwf _ Hs); assumption).
  intros other. unfold _create_test_fun. cbn [with_loader_dumper get_io_type
    get_command get_api get_input_file get_loader_dumper get_data_object
    get_format].
  repeat match goal with
         | |- context [if ?b then _ else _] => destruct b
         end; try reflexivity.
  unfold bind.
  destruct (with_ (py_open (get_input_file benchmark_spec) "rb") file_read w)
    as [[buffer|e|] w2]; reflexivity.
Qed.

Lemma create_test_fun_setup_only_witness :
  files_wf production
  /\ open_files (snd (_create_test_fun example_format
                        (example_spec "buffer" "read" "load_dump" failing_loader
                                      "ion_binary" false 1 5) production))
     = open_files production.
Proof.
  assert (Hwf : files_wf production) by constructor.
  split; [exact Hwf|].
  pose proof (create_test_fun_setup_only example_format
                (example_spec "buffer" "read" "load_dump" failing_loader
                              "ion_binary" false 1 5) production) as H.
  cbv zeta in H. destruct H as (_ & _ & _ & _ & H & _).
  exact (proj1 (H Hwf)).
Defined.

(** ** The profiler and the tracer *)

(** X4: the figure a successful profiling call returns is the tracer's
    peak at the moment the callable returned (0 if the callable left the
    tracer stopped); afterwards the tracer is stopped whatever its state
    before the call, and the counters of a tracing session that was
    already running are cleared. *)
Theorem trace_memory_allocation_reads_peak_and_stops
  (test_fn : Callable) (w w' : World) (p : Z) :
  _trace_memory_allocation test_fn w = (Ok p, w') ->
  exists v w1,
    test_fn (snd (tracemalloc.start (set_gc_enabled false w))) = (Ok v, w1)
    /\ p = (if tracing w1 then Z.of_N (traced_peak w1) else 0)
    /\ tracing w' = false
    /\ (tracing w1 = true -> traced_current w' = 0%N /\ traced_peak w' = 0%N)
    /\ clock_ns w' = clock_ns w1
    /\ open_files w' = open_files w1.
Proof.
  intros H. apply trace_memory_allocation_Ok in H.
  destruct H as (v & w1 & Hf & -> & ->). exists v, w1.
  split; [exact Hf|]. unfold tracemalloc.traced_memory, tracemalloc.stop.
  cbn [snd]. destruct (tracing w1) eqn:T; cbn; rewrite ?T; repeat split; congruence.
Qed.

Lemma trace_memory_allocation_reads_peak_and_stops_witness :
  let tracing_caller := set_traced true 100 500 production in
  _trace_memory_allocation (steady 250 64) tracing_caller
  = (Ok 500, set_clock_ns 1250 production)
  /\ tracing (set_clock_ns 1250 production) = false.
Proof.
  intros tracing_caller.
  assert (E : _trace_memory_allocation (steady 250 64) tracing_caller
              = (Ok 500, set_clock_ns 1250 production)) by reflexivity.
  split; [exact E|].
  destruct (trace_memory_allocation_reads_peak_and_stops _ _ _ _ E)
    as (v & w1 & _ & _ & H & _).
  exact H.
Defined.

(** ** The collector switch at entry *)

Lemma same_but_gc_refl (w : World) : same_but_gc w w.
Proof. reflexivity. Qed.

Lemma same_but_gc_set (b1 b2 : bool) (w1 w2 : World) :
  same_but_gc w1 w2 ->
  same_but_gc (set_gc_enabled b1 w1) (set_gc_enabled b2 w2).
Proof. intros H. exact H. Qed.

Lemma gc_blind_ret {A} (a : A) : gc_blind (ret a).
Proof. intros w1 w2 H. split; [reflexivity|exact H]. Qed.

Lemma gc_blind_raise {A} (e : PyExn) : gc_blind (@raise A e).
Proof. intros w1 w2 H. split; [reflexivity|exact H]. Qed.

Lemma gc_blind_bind {A B} (c : M A) (k : A -> M B) :
  gc_blind c -> (forall a, gc_blind (k a)) -> gc_blind (bind c k).
Proof.
  intros Hc Hk w1 w2 H. destruct (Hc w1 w2 H) as [Ho Hw]. unfold bind.
  destruct (c w1) as [o1 v1], (c w2) as [o2 v2]. cbn [fst snd] in *. subst o2.
  destruct o1 as [a|e|]; [apply Hk; exact Hw|..];
    (split; [reflexivity|exact Hw]).
Qed.

Lemma gc_blind_try_finally {A} (c : M A) (fin : M unit) :
  gc_blind c -> gc_blind fin -> gc_blind (try_finally c fin).
Proof.
  intros Hc Hf w1 w2 H. destruct (Hc w1 w2 H) as [Ho Hw]. unfold try_finally.
  destruct (c w1) as [o1 v1], (c w2) as [o2 v2]. cbn [fst snd] in *. subst o2.
  destruct o1 as [a|e|]; [| |split; [reflexivity|exact Hw]];
    destruct (Hf v1 v2 Hw) as [Ho' Hw'];
    destruct (fin v1) as [p1 u1], (fin v2) as [p2 u2]; cbn [fst snd] in *;
    subst p2; destruct p1 as [[]|e'|]; split; (reflexivity || exact Hw').
Qed.

(** An operation that does not read the collector switch. *)
Ltac blind_by_fields :=
  intros [g1 t1 c1 p1 k1 e1 f1 n1 o1] [g2 t2 c2 p2 k2 e2 f2 n2 o2] H;
  injection H as -> -> -> -> -> -> -> ->.

Lemma gc_blind_py_open (path mode : string) : gc_blind (py_open path mode).
Proof.
  blind_by_fields. unfold py_open. cbn.
  destruct (lookup path f2); split; reflexivity.
Qed.

Lemma gc_blind_file_read (f : FileObj) : gc_blind (file_read f).
Proof.
  blind_by_fields. unfold file_read. cbn.
  destruct (name f) as [path|]; [destruct (lookup path f2)|]; split; reflexivity.
Qed.

Lemma gc_blind_file_close (f : FileObj) : gc_blind (file_close f).
Proof. blind_by_fields. split; reflexivity. Qed.

Lemma gc_blind_in_environ (key : string) : gc_blind (in_environ key).
Proof. blind_by_fields. split; reflexivity. Qed.

Lemma gc_blind_create_test_fun (_format : FormatModule)
  (benchmark_spec : BenchmarkSpec) :
  gc_blind (_create_test_fun _format benchmark_spec).
Proof.
  unfold _create_test_fun.
  repeat match goal with
         | |- gc_blind (if ?b then _ else _) => destruct b
         end;
    try apply gc_blind_ret; try apply gc_blind_raise.
  apply gc_blind_bind; [|intros b; apply gc_blind_ret].
  unfold with_. apply gc_blind_bind; [apply gc_blind_py_open|]. intros f.
  apply gc_blind_try_finally; [apply gc_blind_file_read|apply gc_blind_file_close].
Qed.

(** Whatever the statement and the setup do with the collector,
    [Timer.timeit] starts them from a state with the collector off. *)
Lemma gc_blind_timeit {T} (t : timeit.Timer T) (number : Z) :
  gc_blind (timeit.timeit t number).
Proof.
  intros w1 w2 H. unfold timeit.timeit, bind, gc.isenabled, gc.disable.
  unfold same_but_gc in H. rewrite H. unfold try_finally.
  destruct (timeit.inner t number (set_gc_enabled false w2)) as [[x|e|] w3];
    destruct (gc_enabled w1), (gc_enabled w2); cbn; split; reflexivity.
Qed.

Lemma gc_blind_repeat {T} (t : timeit.Timer T) (r number : Z) :
  gc_blind (timeit.repeat t r number).
Proof.
  unfold timeit.repeat.
  induction (Z.to_nat r) as [|n IH]; cbn [timeit.repeat_loop].
  - apply gc_blind_ret.
  - apply gc_blind_bind; [apply gc_blind_timeit|]. intros x.
    apply gc_blind_bind; [exact IH|]. intros xs. apply gc_blind_ret.
Qed.

Lemma gc_blind_autorange (fuel : nat) (t : timeit.Timer Q) :
  gc_blind (timeit.autorange fuel t).
Proof.
  unfold timeit.autorange. generalize 1.
  induction fuel as [|fuel IH]; intros i; cbn [timeit.autorange_while].
  - intros w1 w2 H. split; [reflexivity|exact H].
  - apply gc_blind_bind.
    + induction [1; 2; 5] as [|j js IHj]; cbn [timeit.autorange_for].
      * apply gc_blind_ret.
      * apply gc_blind_bind; [apply gc_blind_timeit|]. intros time_taken.
        destruct (float_ge time_taken timeit.threshold);
          [apply gc_blind_ret|exact IHj].
    + intros [found|]; [apply gc_blind_ret|apply IH].
Qed.

Lemma gc_blind_collect_samples (fuel : nat) (benchmark_spec : BenchmarkSpec)
  (test_fun : Callable) :
  gc_blind (collect_samples fuel benchmark_spec test_fun).
Proof.
  unfold collect_samples.
  apply gc_blind_bind; [apply gc_blind_timeit|]. intros _.
  apply gc_blind_bind.
  { unfold calibrate. apply gc_blind_bind; [apply gc_blind_in_environ|].
    intros [|]; [apply gc_blind_ret|].
    apply gc_blind_bind; [apply gc_blind_autorange|].
    intros found. apply gc_blind_ret. }
  intros batch_size. apply gc_blind_bind; [apply gc_blind_repeat|].
  intros raw. apply gc_blind_ret.
Qed.

Lemma gc_blind_normalize (batch_size : Z) (raw_timings : list Z)
  (peak : option Z) :
  gc_blind (normalize batch_size raw_timings peak).
Proof.
  unfold normalize.
  assert (L : forall A B (f : A -> M B) l,
             (forall a, gc_blind (f a)) -> gc_blind (list_comprehension f l)).
  { intros A B f l Hf. induction l as [|x l IH]; cbn [list_comprehension].
    - apply gc_blind_ret.
    - apply gc_blind_bind; [apply Hf|]. intros y.
      apply gc_blind_bind; [exact IH|]. intros ys. apply gc_blind_ret. }
  apply gc_blind_bind.
  { apply L. intros t. unfold int_truediv.
    destruct (Z.eqb batch_size 0); [apply gc_blind_raise|apply gc_blind_ret]. }
  intros nanos. apply gc_blind_bind; [|intros ops; apply gc_blind_ret].
  apply L. intros t. unfold float_truediv.
  destruct (Qeq_bool t 0); [apply gc_blind_raise|apply gc_blind_ret].
Qed.

Lemma gc_blind_memory_profiling (platform : Platform) (test_fun : Callable) :
  gc_blind (memory_profiling platform test_fun).
Proof.
  unfold memory_profiling. destruct (_pypy platform); [apply gc_blind_ret|].
  apply gc_blind_bind; [|intros p; apply gc_blind_ret].
  intros w1 w2 H.
  assert (E : _trace_memory_allocation test_fun w1
              = _trace_memory_allocation test_fun w2).
  { rewrite !trace_memory_allocation_run. unfold same_but_gc in H.
    rewrite H. reflexivity. }
  rewrite E. split; reflexivity.
Qed.

(** X5: what [run_benchmark] gives (the result, or the exception) does
    not depend on whether the collector was enabled when it was called,
    whatever the loader/dumper does; the two final states differ at most
    in the collector switch. *)
Theorem run_benchmark_collector_at_entry
  (platform : Platform) (_format : FormatModule) (fuel : nat)
  (benchmark_spec : BenchmarkSpec) (w : World) (collector : bool) :
  fst (run_benchmark platform _format fuel benchmark_spec
         (set_gc_enabled collector w))
  = fst (run_benchmark platform _format fuel benchmark_spec w)
  /\ same_but_gc
       (snd (run_benchmark platform _format fuel benchmark_spec
               (set_gc_enabled collector w)))
       (snd (run_benchmark platform _format fuel benchmark_spec w)).
Proof.
  assert (H : gc_blind (run_benchmark platform _format fuel benchmark_spec)).
  { unfold run_benchmark.
    apply gc_blind_bind; [apply gc_blind_create_test_fun|]. intros test_fun.
    apply gc_blind_bind; [apply gc_blind_memory_profiling|]. intros peak.
    apply gc_blind_bind; [apply gc_blind_collect_samples|]. intros sampled.
    apply gc_blind_normalize. }
  apply H. reflexivity.
Qed.

(** ** What holds at every exit *)

Section Exits.

Variable Inv : World -> Prop.

Lemma exits_with_of_preserves {A} (c : M A) :
  preserves Inv c -> exits_with Inv c.
Proof. intros H w Hw _. exact (H w Hw). Qed.

Lemma exits_with_ret {A} (a : A) : exits_with Inv (ret a).
Proof. intros w Hw _. exact Hw. Qed.

Lemma exits_with_bind_Ok {A B} (c : M A) (k : A -> M B) :
  exits_with Inv c ->
  (forall a w w1, c w = (Ok a, w1) -> exits_with Inv (k a)) ->
  exits_with Inv (bind c k).
Proof.
  intros Hc Hk w Hw. specialize (Hc w Hw). unfold bind.
  destruct (c w) as [[a|e|] w1] eqn:E; cbn [fst snd] in *.
  - apply (Hk a w w1 E). apply Hc. discriminate.
  - intros _. apply Hc. discriminate.
  - intros N. contradiction.
Qed.

Lemma exits_with_bind {A B} (c : M A) (k : A -> M B) :
  exits_with Inv c -> (forall a, exits_with Inv (k a)) -> exits_with Inv (bind c k).
Proof.
  intros Hc Hk. apply exits_with_bind_Ok; [exact Hc|]. intros a _ _ _. apply Hk.
Qed.

Lemma exits_with_try_finally {A} (c : M A) (fin : M unit) :
  exits_with Inv c -> exits_with Inv fin -> exits_with Inv (try_finally c fin).
Proof.
  intros Hc Hf w Hw. specialize (Hc w Hw). unfold try_finally.
  destruct (c w) as [[a|e|] w1]; cbn [fst snd] in *;
    [| |intros N; contradiction];
    specialize (Hf w1 (Hc ltac:(discriminate)));
    destruct (fin w1) as [[[]|e'|] w2]; cbn [fst snd] in *; intros N;
    (apply Hf; discriminate) || contradiction.
Qed.

Lemma exits_with_loop (n : nat) (f : M PyObj) :
  exits_with Inv f -> exits_with Inv (timeit.loop n f).
Proof.
  intros Hf. induction n as [|n IH]; cbn [timeit.loop].
  - apply exits_with_ret.
  - apply exits_with_bind; [exact Hf|]. intros _. exact IH.
Qed.

Lemma exits_with_repeat {T} (t : timeit.Timer T) (r number : Z) :
  (forall n, exits_with Inv (timeit.timeit t n)) ->
  exits_with Inv (timeit.repeat t r number).
Proof.
  intros Ht. unfold timeit.repeat.
  induction (Z.to_nat r) as [|n IH]; cbn [timeit.repeat_loop].
  - apply exits_with_ret.
  - apply exits_with_bind; [apply Ht|]. intros x.
    apply exits_with_bind; [exact IH|]. intros xs. apply exits_with_ret.
Qed.

Lemma exits_with_autorange (fuel : nat) (t : timeit.Timer Q) :
  (forall n, exits_with Inv (timeit.timeit t n)) ->
  exits_with Inv (timeit.autorange fuel t).
Proof.
  intros Ht. unfold timeit.autorange. generalize 1.
  induction fuel as [|fuel IH]; intros i; cbn [timeit.autorange_while].
  - intros w _ N. contradiction.
  - apply exits_with_bind.
    + induction [1; 2; 5] as [|j js IHj]; cbn [timeit.autorange_for].
      * apply exits_with_ret.
      * apply exits_with_bind; [apply Ht|]. intros time_taken.
        destruct (float_ge time_taken timeit.threshold);
          [apply exits_with_ret|exact IHj].
    + intros [found|]; [apply exits_with_ret|apply IH].
Qed.

Lemma exits_with_collect_samples (fuel : nat) (benchmark_spec : BenchmarkSpec)
  (test_fun : Callable) :
  (forall n, exits_with Inv
     (timeit.timeit (timeit.mkTimer test_fun (setup_of benchmark_spec)
                                    time.perf_counter_ns Z.sub) n)) ->
  (forall n, exits_with Inv
     (timeit.timeit (timeit.mkTimer test_fun (setup_of benchmark_spec)
                                    time.perf_counter float_sub) n)) ->
  exits_with Inv (collect_samples fuel benchmark_spec test_fun).
Proof.
  intros Hns Hs. unfold collect_samples.
  apply exits_with_bind; [apply Hns|]. intros _.
  apply exits_with_bind.
  { unfold calibrate. apply exits_with_bind.
    - intros w Hw _. exact Hw.
    - intros [|]; [apply exits_with_ret|].
      apply exits_with_bind; [|intros found; apply exits_with_ret].
      apply exits_with_autorange. exact Hs. }
  intros batch_size. apply exits_with_bind; [|intros raw; apply exits_with_ret].
  apply exits_with_repeat. exact Hns.
Qed.

Lemma exits_with_normalize (batch_size : Z) (raw_timings : list Z)
  (peak : option Z) :
  exits_with Inv (normalize batch_size raw_timings peak).
Proof. apply exits_with_of_preserves. apply preserves_normalize. Qed.

(** *** Properties that do not depend on the collector switch *)

Hypothesis Inv_gc : forall b w, Inv w -> Inv (set_gc_enabled b w).

Lemma exits_with_timeit {T} (t : timeit.Timer T) (number : Z) :
  exits_with Inv (timeit.stmt t) -> exits_with Inv (timeit.setup t) ->
  preserves Inv (timeit.timer t) ->
  exits_with Inv (timeit.timeit t number).
Proof.
  intros Hs Hu Ht. unfold timeit.timeit.
  apply exits_with_bind; [intros w Hw _; exact Hw|]. intros gcold.
  apply exits_with_bind; [intros w Hw _; apply Inv_gc; exact Hw|]. intros _.
  apply exits_with_try_finally.
  - unfold timeit.inner.
    apply exits_with_bind; [exact Hu|]. intros _.
    apply exits_with_bind; [apply exits_with_of_preserves; exact Ht|]. intros t0.
    apply exits_with_bind; [apply exits_with_loop; exact Hs|]. intros _.
    apply exits_with_bind; [apply exits_with_of_preserves; exact Ht|].
    intros t1. apply exits_with_ret.
  - destruct gcold; [|apply exits_with_ret].
    intros w Hw _. apply Inv_gc. exact Hw.
Qed.

Hypothesis Inv_traced : forall t c p w, Inv w -> Inv (set_traced t c p w).

Lemma exits_with_memory_profiling (platform : Platform) (test_fun : Callable) :
  exits_with Inv test_fun -> exits_with Inv (memory_profiling platform test_fun).
Proof.
  intros Hf. unfold memory_profiling.
  destruct (_pypy platform); [apply exits_with_ret|].
  apply exits_with_bind; [|intros p; apply exits_with_ret].
  unfold _trace_memory_allocation.
  apply exits_with_bind; [intros w Hw _; apply Inv_gc; exact Hw|]. intros _.
  apply exits_with_bind.
  { apply exits_with_of_preserves. apply preserves_tracemalloc_start.
    exact Inv_traced. }
  intros _. apply exits_with_bind; [exact Hf|]. intros _.
  apply exits_with_bind; [intros w Hw _; exact Hw|]. intros traced.
  apply exits_with_bind.
  { apply exits_with_of_preserves. apply preserves_tracemalloc_stop.
    exact Inv_traced. }
  intros _. apply exits_with_bind; [intros w Hw _; apply Inv_gc; exact Hw|].
  intros _. apply exits_with_ret.
Qed.

(** The run keeps what the factory and the callable it returns keep. *)
Lemma exits_with_run_benchmark (platform : Platform) (_format : FormatModule)
  (fuel : nat) (benchmark_spec : BenchmarkSpec) :
  exits_with Inv (_create_test_fun _format benchmark_spec) ->
  (forall test_fun w w1,
     _create_test_fun _format benchmark_spec w = (Ok test_fun, w1) ->
     exits_with Inv test_fun) ->
  exits_with Inv (run_benchmark platform _format fuel benchmark_spec).
Proof.
  intros Hc Hf. unfold run_benchmark.
  apply exits_with_bind_Ok; [exact Hc|]. intros test_fun w w1 E.
  specialize (Hf test_fun w w1 E).
  assert (Hsetup : exits_with Inv (setup_of benchmark_spec)).
  { unfold setup_of. destruct (py_gc_disabled benchmark_spec);
      intros w0 H0 _; apply Inv_gc; exact H0. }
  apply exits_with_bind; [apply exits_with_memory_profiling; exact Hf|].
  intros peak. apply exits_with_bind; [|intros sampled; apply exits_with_normalize].
  apply exits_with_collect_samples; intros n; apply exits_with_timeit;
    try assumption; intros w0 H0; exact H0.
Qed.

End Exits.

(** ** File handles *)

Lemma open_exactly_close (L : list FileObj) (f : FileObj) (w w2 : World) :
  open_exactly L w -> fileno f = next_fileno w ->
  open_exactly (f :: L) w2 ->
  open_exactly L (snd (file_close f w2)).
Proof.
  intros [HL Hwf] Hf [H2 Hwf2]. unfold open_exactly, files_wf, file_close in *.
  cbn [snd open_files next_fileno set_open_files]. rewrite H2.
  cbn [filter]. rewrite Nat.eqb_refl. cbn [negb].
  assert (E : filter (fun g => negb (Nat.eqb (fileno g) (fileno f))) L = L).
  { rewrite Hf. rewrite <- HL. apply filter_fresh. exact Hwf. }
  rewrite E. split; [reflexivity|].
  rewrite H2 in Hwf2. inversion Hwf2; assumption.
Qed.

(** A [with] block over [open] or [TemporaryFile] leaves open what was
    open, on return and on exception. *)
Lemma exits_with_with {A} (L : list FileObj) (enter : M FileObj)
  (body : FileObj -> M A) :
  (forall w, (exists e, enter w = (Raise e, w))
             \/ exists f, fileno f = next_fileno w
                          /\ enter w = (Ok f, set_open_files (S (next_fileno w))
                                            (f :: open_files w) w)) ->
  (forall f, exits_with (open_exactly (f :: L)) (body f)) ->
  exits_with (open_exactly L) (with_ enter body).
Proof.
  intros He Hb w Hw. unfold with_, bind.
  destruct (He w) as [(e & E)|(f & Hf & E)]; rewrite E; cbn [fst snd].
  - intros _. exact Hw.
  - set (w1 := set_open_files (S (next_fileno w)) (f :: open_files w) w).
    assert (H1 : open_exactly (f :: L) w1).
    { destruct Hw as [HL Hwf]. split; [cbn; rewrite HL; reflexivity|].
      unfold files_wf in *. cbn. constructor; [lia|].
      eapply Forall_impl; [|exact Hwf]. cbn. intros g Hg. lia. }
    specialize (Hb f w1 H1). unfold try_finally.
    destruct (body f w1) as [[a|e|] w2]; cbn [fst snd] in *;
      [| |intros N; contradiction]; intros _;
      apply (open_exactly_close L f w w2 Hw Hf); apply Hb; discriminate.
Qed.

Lemma py_open_enters (path mode : string) (w : World) :
  (exists e, py_open path mode w = (Raise e, w))
  \/ exists f, fileno f = next_fileno w
               /\ py_open path mode w
                  = (Ok f, set_open_files (S (next_fileno w)) (f :: open_files w) w).
Proof.
  unfold py_open. destruct (lookup path (files w)).
  - right. eexists. split; [|reflexivity]. reflexivity.
  - left. eexists. reflexivity.
Qed.

Lemma TemporaryFile_enters (mode : string) (w : World) :
  (exists e, tempfile.TemporaryFile mode w = (Raise e, w))
  \/ exists f, fileno f = next_fileno w
               /\ tempfile.TemporaryFile mode w
                  = (Ok f, set_open_files (S (next_fileno w)) (f :: open_files w) w).
Proof. right. eexists. split; [|reflexivity]. reflexivity. Qed.

Lemma file_read_open_exactly (L : list FileObj) (f : FileObj) :
  exits_with (open_exactly L) (file_read f).
Proof.
  intros w Hw _. unfold file_read.
  destruct (name f) as [path|]; [destruct (lookup path (files w))|]; exact Hw.
Qed.

(** X6: when the loader/dumper opens and closes no file of its own,
    every exit of [run_benchmark] (a result or an exception, from any
    step) leaves open exactly the files that were open before: the input
    file of the setup and the file of every invocation are closed. *)
Theorem run_benchmark_leaves_no_file_open
  (platform : Platform) (_format : FormatModule) (fuel : nat)
  (benchmark_spec : BenchmarkSpec) (w : World) :
  files_wf w ->
  (forall L, loader_exits (open_exactly L) (get_loader_dumper benchmark_spec)) ->
  fst (run_benchmark platform _format fuel benchmark_spec w) <> OutOfFuel ->
  open_files (snd (run_benchmark platform _format fuel benchmark_spec w))
  = open_files w
  /\ files_wf (snd (run_benchmark platform _format fuel benchmark_spec w)).
Proof.
  intros Hwf Hld Hexit.
  assert (Hgc : forall b w0, open_exactly (open_files w) w0 ->
                             open_exactly (open_files w) (set_gc_enabled b w0))
    by (intros b w0 H0; exact H0).
  assert (Htr : forall t c p w0, open_exactly (open_files w) w0 ->
                  open_exactly (open_files w) (set_traced t c p w0))
    by (intros t c p w0 H0; exact H0).
  apply (exits_with_run_benchmark (open_exactly (open_files w)) Hgc Htr
           platform _format fuel benchmark_spec); [| |split; [reflexivity|exact Hwf]|exact Hexit].
  - unfold _create_test_fun.
    repeat match goal with
           | |- exits_with _ (if ?b then _ else _) => destruct b
           end;
      try apply exits_with_ret; try (intros w0 H0 _; exact H0).
    apply exits_with_bind; [|intros b; apply exits_with_ret].
    apply exits_with_with; [apply py_open_enters|].
    intros f. apply file_read_open_exactly.
  - destruct (Hld (open_files w)) as (Hloads & Hdumps & _ & _).
    intros test_fun w0 w1. unfold _create_test_fun.
    repeat match goal with
           | |- context [if ?b then _ else _] => destruct b
           end; intros H.
    + apply bind_Ok in H. destruct H as (buffer & w2 & _ & H).
      injection H as <- _. apply Hloads.
    + injection H as <- _. apply Hdumps.
    + injection H as <- _.
      apply exits_with_with; [apply py_open_enters|].
      intros f. apply (Hld (f :: open_files w)).
    + injection H as <- _.
      apply exits_with_with; [apply TemporaryFile_enters|].
      intros f. apply (Hld (f :: open_files w)).
    + injection H as <- _.
      apply exits_with_with; [apply TemporaryFile_enters|].
      intros f. apply (Hld (f :: open_files w)).
    + discriminate H.
Qed.

Lemma malformed_open_exactly (L : list FileObj) :
  exits_with (open_exactly L) malformed.
Proof. intros w Hw _. exact Hw. Qed.

Lemma failing_loader_open_exactly (L : list FileObj) :
  loader_exits (open_exactly L) failing_loader.
Proof.
  split; [|split; [|split]]; intros; apply malformed_open_exactly.
Qed.

Lemma run_benchmark_leaves_no_file_open_witness :
  let s := example_spec "file" "write" "load_dump" failing_loader
                        "ion_binary" false 1 3 in
  files_wf production
  /\ fst (run_benchmark cpython example_format 10 s production)
     = Raise (Exception "malformed input")
  /\ open_files (snd (run_benchmark cpython example_format 10 s production))
     = open_files production.
Proof.
  intros s.
  assert (Hwf : files_wf production) by constructor.
  assert (E : fst (run_benchmark cpython example_format 10 s production)
              = Raise (Exception "malformed input")) by reflexivity.
  split; [exact Hwf|]. split; [exact E|].
  refine (proj1 (run_benchmark_leaves_no_file_open cpython example_format 10 s
                   production Hwf _ _)).
  - intros L. apply failing_loader_open_exactly.
  - rewrite E. discriminate.
Defined.

(** ** The number of samples *)

(** X7: in any mode (test harness or range-finding) a returned result has
    as many samples in each distribution as [range(iterations)] has
    elements.  For an iteration count of zero or less the sampling step
    runs nothing and returns no timings, so the two distributions of a
    returned result are empty. *)
Theorem sample_count_any_mode
  (platform : Platform) (_format : FormatModule) (fuel : nat)
  (benchmark_spec : BenchmarkSpec) (w w' : World) (r : BenchmarkResult) :
  run_benchmark platform _format fuel benchmark_spec w = (Ok r, w') ->
  List.length (samples (nanos_per_op r)) = Z.to_nat (get_iterations benchmark_spec)
  /\ List.length (samples (ops_per_second r))
     = Z.to_nat (get_iterations benchmark_spec)
  /\ (get_iterations benchmark_spec <= 0 ->
      samples (nanos_per_op r) = [] /\ samples (ops_per_second r) = []
      /\ forall (test_fun : Callable) batch_size w0,
           timeit.repeat
             (timeit.mkTimer test_fun (setup_of benchmark_spec)
                             time.perf_counter_ns Z.sub)
             (get_iterations benchmark_spec) batch_size w0
           = (Ok [], w0)).
Proof.
  intros H. apply run_benchmark_Ok in H.
  destruct H as (test_fun & w1 & peak & w2 & b & raw & _ & _ & H3 & H4).
  apply collect_samples_Ok in H3. cbv zeta in H3.
  destruct H3 as (t & w3 & w4 & _ & _ & Hr).
  apply repeat_length in Hr.
  apply normalize_Ok in H4. destruct H4 as (Hn & Ho & _).
  assert (Ln : List.length (samples (nanos_per_op r))
               = Z.to_nat (get_iterations benchmark_spec))
    by (rewrite Hn, length_map; exact Hr).
  assert (Lo : List.length (samples (ops_per_second r))
               = Z.to_nat (get_iterations benchmark_spec))
    by (rewrite Ho, length_map; exact Ln).
  split; [exact Ln|]. split; [exact Lo|].
  intros Hneg. split; [|split]; try (apply length_zero_iff_nil; lia).
  intros f bs w0. unfold timeit.repeat.
  replace (Z.to_nat (get_iterations benchmark_spec)) with 0%nat by lia.
  reflexivity.
Qed.

(** Outside the test harness, with range-finding. *)
Lemma sample_count_any_mode_witness :
  let s := example_spec "file" "write" "load_dump" (steady_loader 100000000 64)
                        "ion_binary" true 1 3 in
  let r := BenchmarkResult__init__
             [100000000; 100000000; 100000000]%Q [10; 10; 10]%Q (Some 64) in
  run_benchmark cpython example_format 10 s production
  = (Ok r, set_clock_ns 3500001000 (set_open_files 38 [] production))
  /\ List.length (samples (nanos_per_op r)) = 3%nat.
Proof.
  intros s r.
  assert (E : run_benchmark cpython example_format 10 s production
              = (Ok r, set_clock_ns 3500001000 (set_open_files 38 [] production)))
    by (vm_compute; reflexivity).
  split; [exact E|].
  exact (proj1 (sample_count_any_mode _ _ _ _ _ _ _ E)).
Defined.

(** ** A batch measured as zero *)

Lemma ops_per_sec_zero (nanos : list Q) (w : World) :
  Exists (fun x => Qeq_bool x 0 = true) nanos ->
  list_comprehension (fun t => float_truediv (Float.of_int 1000000000) t) nanos w
  = (Raise ZeroDivisionError, w).
Proof.
  induction nanos as [|x nanos IH]; intros H; [inversion H|].
  cbn [list_comprehension]. unfold bind at 1, float_truediv at 1.
  destruct (Qeq_bool x 0) eqn:E; [reflexivity|].
  cbn [ret]. inversion H as [? ? Hx|? ? Ht]; subst; [congruence|].
  unfold bind. rewrite (IH Ht). reflexivity.
Qed.

(** X8: when one raw timing is 0 (a batch faster than the resolution of
    the clock) the second comprehension divides by a zero float:
    normalization raises [ZeroDivisionError] and no result is built; so
    does a batch size of 0 with at least one timing. *)
Theorem normalize_zero_division
  (batch_size : Z) (raw_timings : list Z) (peak : option Z) (w : World) :
  In 0 raw_timings \/ (batch_size = 0 /\ raw_timings <> []) ->
  normalize batch_size raw_timings peak w = (Raise ZeroDivisionError, w).
Proof.
  intros H. unfold normalize.
  destruct (Z.eq_dec batch_size 0) as [->|Hb].
  - destruct raw_timings as [|t raw]; [destruct H as [[]|[_ N]]; contradiction|].
    reflexivity.
  - destruct H as [H|[N _]]; [|contradiction].
    rewrite (bind_run _ _ _ _ _ (nanos_per_op_run batch_size raw_timings w Hb)).
    unfold bind. rewrite ops_per_sec_zero; [reflexivity|].
    apply Exists_exists. exists (Float.fl (inject_Z 0 / inject_Z batch_size)).
    split; [apply in_map_iff; exists 0; auto|].
    destruct batch_size; reflexivity.
Qed.

Lemma normalize_zero_division_witness :
  In 0 [250; 0; 250]
  /\ normalize 1 [250; 0; 250] (Some 64) under_pytest
     = (Raise ZeroDivisionError, under_pytest).
Proof.
  assert (H : In 0 [250; 0; 250]) by (right; left; reflexivity).
  split; [exact H|].
  exact (normalize_zero_division 1 [250; 0; 250] (Some 64) under_pytest
           (or_introl H)).
Defined.

(** ** How often the callable runs under the test harness *)

Lemma setup_of_clock (benchmark_spec : BenchmarkSpec) (w0 : World) :
  exists w1, setup_of benchmark_spec w0 = (Ok tt, w1)
             /\ clock_ns w1 = clock_ns w0.
Proof.
  unfold setup_of. destruct (py_gc_disabled benchmark_spec);
    eexists; split; reflexivity.
Qed.

Lemma test_mode_run_Ok
  (platform : Platform) (_format : FormatModule) (fuel : nat)
  (benchmark_spec : BenchmarkSpec) (w w' : World) (r : BenchmarkResult) :
  environ_has "PYTEST_CURRENT_TEST" w = true ->
  loader_preserves (fun w0 => environ w0 = environ w)
                   (get_loader_dumper benchmark_spec) ->
  run_benchmark platform _format fuel benchmark_spec w = (Ok r, w') ->
  let timer test_fun := timeit.mkTimer test_fun (setup_of benchmark_spec)
                                       time.perf_counter_ns Z.sub in
  exists test_fun w1 peak w2 t w3 raw_timings,
    _create_test_fun _format benchmark_spec w = (Ok test_fun, w1)
    /\ memory_profiling platform test_fun w1 = (Ok peak, w2)
    /\ timeit.timeit (timer test_fun) (get_warmups benchmark_spec) w2 = (Ok t, w3)
    /\ timeit.repeat (timer test_fun) (get_iterations benchmark_spec) 1 w3
       = (Ok raw_timings, w')
    /\ normalize 1 raw_timings peak w' = (Ok r, w').
Proof.
  intros Hm Hld H timer. apply run_benchmark_Ok in H.
  destruct H as (test_fun & w1 & peak & w2 & b & raw & H1 & H2 & H3 & H4).
  set (P := fun w0 => environ w0 = environ w) in *.
  assert (P_gc : forall b w0, P w0 -> P (set_gc_enabled b w0)) by (intros; assumption).
  assert (P_files : forall n l w0, P w0 -> P (set_open_files n l w0))
    by (intros; assumption).
  assert (P_traced : forall t c p w0, P w0 -> P (set_traced t c p w0))
    by (intros; assumption).
  assert (Hf : preserves P test_fun)
    by exact (created_test_fun_preserves P P_files _ _ _ _ _ Hld H1).
  assert (Pw1 : P w1).
  { pose proof (preserves_create_test_fun P P_files _format benchmark_spec w
                  eq_refl) as K.
    rewrite H1 in K. exact K. }
  assert (Pw2 : P w2).
  { pose proof (preserves_memory_profiling P P_gc P_traced platform test_fun
                  Hf w1 Pw1) as K.
    rewrite H2 in K. exact K. }
  pose proof (collect_samples_Ok _ _ _ _ _ _ _ H3) as (t & w3 & w4 & Hw & Hc & Hr).
  assert (Pw3 : P w3).
  { assert (Ht : timer_preserves P (timer test_fun)).
    { split; [exact Hf|]. split;
        [apply preserves_setup_of; exact P_gc|apply preserves_perf_counter_ns]. }
    pose proof (preserves_timeit P P_gc _ (get_warmups benchmark_spec) Ht w2 Pw2) as K.
    fold (timer test_fun) in Hw. rewrite Hw in K. exact K. }
  assert (Hm3 : environ_has "PYTEST_CURRENT_TEST" w3 = true).
  { rewrite (environ_has_ext _ w3 w Pw3). exact Hm. }
  rewrite (calibrate_test_mode fuel _ _ w3 Hm3) in Hc.
  injection Hc as <- <-.
  exists test_fun, w1, peak, w2, t, w3, raw. auto.
Qed.

Lemma try_finally_Ok {A} (c : M A) (fin : M unit) (w w' : World) (a : A) :
  try_finally c fin w = (Ok a, w') ->
  exists w1 u, c w = (Ok a, w1) /\ fin w1 = (Ok u, w').
Proof.
  unfold try_finally. destruct (c w) as [[x|e|] w1]; [| |discriminate];
    destruct (fin w1) as [[u|e'|] w2] eqn:E; intros H; try discriminate.
  injection H as <- <-. exists w1, u. split; [reflexivity|exact E].
Qed.

Lemma loop_counts (m : World -> Z) (f : Callable) (n : nat) (w w' : World) :
  counts_calls m f ->
  timeit.loop n f w = (Ok tt, w') -> m w' = m w + Z.of_nat n.
Proof.
  intros Hf. revert w. induction n as [|n IH]; intros w; cbn [timeit.loop].
  - intros H. injection H as <-. lia.
  - intros H. apply bind_Ok in H. destruct H as (v & w1 & E & H).
    rewrite (IH _ H), (Hf _ _ _ E). lia.
Qed.

(** A timed batch that returns has called the statement [number] times. *)
Lemma timeit_counts (m : World -> Z) (f : Callable)
  (benchmark_spec : BenchmarkSpec) (number t : Z) (w w' : World) :
  runner_blind m -> counts_calls m f ->
  timeit.timeit (timeit.mkTimer f (setup_of benchmark_spec)
                                time.perf_counter_ns Z.sub) number w
  = (Ok t, w') ->
  m w' = m w + Z.max 0 number.
Proof.
  intros (Mgc & _ & _) Hf H. unfold timeit.timeit in H.
  apply bind_Ok in H. destruct H as (gcold & w0 & E0 & H).
  injection E0 as _ <-.
  apply bind_Ok in H. destruct H as ([] & w1 & E1 & H).
  injection E1 as <-.
  apply try_finally_Ok in H. destruct H as (w2 & u & Hin & Hfin).
  assert (M2 : m w2 = m w + Z.max 0 number).
  { unfold timeit.inner in Hin.
    cbn [timeit.setup timeit.timer timeit.stmt timeit.sub] in Hin.
    apply bind_Ok in Hin. destruct Hin as ([] & w3 & Es & Hin).
    assert (M3 : m w3 = m w).
    { unfold setup_of in Es. destruct (py_gc_disabled benchmark_spec);
        injection Es as <-; rewrite !Mgc; reflexivity. }
    apply bind_Ok in Hin. destruct Hin as (t0 & w4 & Et & Hin).
    injection Et as _ <-.
    apply bind_Ok in Hin. destruct Hin as ([] & w5 & El & Hin).
    apply bind_Ok in Hin. destruct Hin as (t1 & w6 & Et & Hin).
    injection Et as _ <-. injection Hin as _ <-.
    rewrite (loop_counts m f _ _ _ Hf El), M3. lia. }
  destruct gcold.
  - injection Hfin as _ <-. rewrite Mgc. exact M2.
  - injection Hfin as _ <-. exact M2.
Qed.

Lemma repeat_counts (m : World -> Z) (f : Callable)
  (benchmark_spec : BenchmarkSpec) (r number : Z) (raw : list Z)
  (w w' : World) :
  runner_blind m -> counts_calls m f ->
  timeit.repeat (timeit.mkTimer f (setup_of benchmark_spec)
                                time.perf_counter_ns Z.sub) r number w
  = (Ok raw, w') ->
  m w' = m w + Z.max 0 r * Z.max 0 number.
Proof.
  intros Hm Hf. unfold timeit.repeat.
  replace (Z.max 0 r) with (Z.of_nat (Z.to_nat r)) by lia.
  generalize (Z.to_nat r) as n. intros n. revert w raw.
  induction n as [|n IH]; intros w raw; cbn [timeit.repeat_loop].
  - intros H. injection H as _ <-. lia.
  - intros H. apply bind_Ok in H. destruct H as (x & w1 & E & H).
    apply bind_Ok in H. destruct H as (xs & w2 & E' & H).
    injection H as _ <-.
    rewrite (IH _ _ E'), (timeit_counts m f _ _ _ _ _ Hm Hf E). lia.
Qed.

Lemma memory_profiling_counts (m : World -> Z) (platform : Platform)
  (test_fun : Callable) (w w' : World) (peak : option Z) :
  runner_blind m -> counts_calls m test_fun ->
  memory_profiling platform test_fun w = (Ok peak, w') ->
  m w' = m w + (if _pypy platform then 0 else 1).
Proof.
  intros (Mgc & Mtr & _) Hf. unfold memory_profiling.
  destruct (_pypy platform).
  - intros H. injection H as _ <-. lia.
  - intros H. apply bind_Ok in H. destruct H as (p & w1 & H & E).
    injection E as _ <-. apply trace_memory_allocation_Ok in H.
    destruct H as (v & w2 & Hrun & _ & ->).
    rewrite Mgc.
    assert (E2 : m (snd (tracemalloc.stop w2)) = m w2)
      by (cbn; destruct (tracing w2); [apply Mtr|reflexivity]).
    assert (E1 : m (snd (tracemalloc.start (set_gc_enabled false w))) = m w)
      by (cbn; destruct (tracing w); [|rewrite Mtr]; apply Mgc).
    rewrite E2, (Hf _ _ _ Hrun), E1. reflexivity.
Qed.

(** X10: how often the callable runs under the test harness.  Let [m] be
    any count kept in the process state that the runner itself leaves
    alone and that every returning call of the callable increases by one.
    Then a run that returns has increased [m] by 1 + warmups + iterations
    on CPython and by warmups + iterations on PyPy: one profiled
    invocation, the warm-up invocations, and one invocation per sample. *)
Theorem test_mode_invocation_count
  (platform : Platform) (_format : FormatModule) (fuel : nat)
  (benchmark_spec : BenchmarkSpec) (w w' : World) (r : BenchmarkResult)
  (m : World -> Z) :
  runner_blind m ->
  environ_has "PYTEST_CURRENT_TEST" w = true ->
  loader_preserves (fun w0 => environ w0 = environ w)
                   (get_loader_dumper benchmark_spec) ->
  (forall test_fun w1,
     _create_test_fun _format benchmark_spec w = (Ok test_fun, w1) ->
     counts_calls m test_fun) ->
  run_benchmark platform _format fuel benchmark_spec w = (Ok r, w') ->
  m w'
  = m w
    + (if _pypy platform then 0 else 1)
    + Z.max 0 (get_warmups benchmark_spec)
    + Z.max 0 (get_iterations benchmark_spec).
Proof.
  intros Hm Hmark Hld Hcount H.
  destruct (test_mode_run_Ok _ _ _ _ _ _ _ Hmark Hld H)
    as (test_fun & w1 & peak & w2 & t & w3 & raw & H1 & H2 & Hw & Hr & _).
  specialize (Hcount test_fun w1 H1).
  assert (C1 : m w1 = m w).
  { pose proof (create_test_fun_state _format benchmark_spec w) as Hs.
    cbv zeta in Hs. rewrite H1 in Hs. cbn [snd] in Hs.
    destruct Hs as [-> | ->]; [reflexivity|apply Hm]. }
  rewrite (repeat_counts m _ _ _ _ _ _ _ Hm Hcount Hr).
  rewrite (timeit_counts m _ _ _ _ _ _ Hm Hcount Hw).
  rewrite (memory_profiling_counts m _ _ _ _ _ Hm Hcount H2), C1. lia.
Qed.

Lemma calls_logged_blind : runner_blind calls_logged.
Proof. repeat split. Qed.

Lemma log_call_counts : counts_calls calls_logged log_call.
Proof.
  intros w v w' H. injection H as _ <-. unfold calls_logged. cbn.
  destruct (lookup "calls.log" (files w)); cbn [List.length]; lia.
Qed.

Lemma logging_loader_preserves_environ (E : list (string * string)) :
  loader_preserves (fun w0 => environ w0 = E) logging_loader.
Proof. repeat split; intros; intros w H; exact H. Qed.

Lemma test_mode_invocation_count_witness :
  let s := example_spec "file" "write" "load_dump" logging_loader
                        "json" false 2 4 in
  environ_has "PYTEST_CURRENT_TEST" under_pytest = true
  /\ calls_logged under_pytest = 0
  /\ fst (run_benchmark cpython example_format 10 s under_pytest)
     = Ok (BenchmarkResult__init__
             [300; 300; 300; 300]%Q
             [7158278826666667 # 2147483648; 7158278826666667 # 2147483648;
              7158278826666667 # 2147483648; 7158278826666667 # 2147483648]%Q
             (Some 0))
  /\ calls_logged (snd (run_benchmark cpython example_format 10 s under_pytest))
     = 1 + 2 + 4.
Proof.
  intros s.
  destruct (run_benchmark cpython example_format 10 s under_pytest)
    as [o w'] eqn:E.
  assert (Eo : o = Ok (BenchmarkResult__init__
             [300; 300; 300; 300]%Q
             [7158278826666667 # 2147483648; 7158278826666667 # 2147483648;
              7158278826666667 # 2147483648; 7158278826666667 # 2147483648]%Q
             (Some 0))).
  { change o with (fst (o, w')). rewrite <- E. vm_compute. reflexivity. }
  split; [reflexivity|]. split; [reflexivity|]. split; [exact Eo|].
  cbn [snd]. rewrite Eo in E.
  refine (test_mode_invocation_count cpython example_format 10 s under_pytest
            w' _ calls_logged calls_logged_blind eq_refl
            (logging_loader_preserves_environ _) _ E).
  intros test_fun w1 H. injection H as <- _.
  intros w0 v w0' Hrun.
  unfold with_, bind, tempfile.TemporaryFile, try_finally in Hrun.
  cbn in Hrun. injection Hrun as _ <-. unfold calls_logged. cbn.
  destruct (lookup "calls.log" (files w0)); cbn [List.length]; lia.
Defined.

(** ** A callable that always raises *)

Lemma timeit_always_raises (e : PyExn) (f : Callable)
  (benchmark_spec : BenchmarkSpec) (number : Z) (w : World) :
  always_raises e f -> 1 <= number ->
  exists w',
    timeit.timeit (timeit.mkTimer f (setup_of benchmark_spec)
                                  time.perf_counter_ns Z.sub) number w
    = (Raise e, w')
    /\ (gc_enabled w = true -> gc_enabled w' = true).
Proof.
  intros Hr Hn.
  set (t := timeit.mkTimer f (setup_of benchmark_spec) time.perf_counter_ns Z.sub).
  destruct (setup_of_clock benchmark_spec (set_gc_enabled false w))
    as (w2 & Es & _).
  destruct (Hr w2) as (w3 & E3).
  assert (Hin : timeit.inner t number (set_gc_enabled false w) = (Raise e, w3)).
  { unfold timeit.inner. cbn [t timeit.setup timeit.timer timeit.stmt timeit.sub].
    rewrite (bind_run _ _ _ _ _ Es).
    rewrite (bind_run time.perf_counter_ns _ w2 w2 (clock_ns w2) eq_refl).
    apply bind_Raise.
    destruct (Z.to_nat number) as [|n] eqn:En; [lia|].
    cbn [timeit.loop]. apply bind_Raise. exact E3. }
  unfold timeit.timeit.
  rewrite (bind_run gc.isenabled _ w w (gc_enabled w) eq_refl).
  rewrite (bind_run gc.disable _ w (set_gc_enabled false w) tt eq_refl).
  unfold try_finally. rewrite Hin.
  destruct (gc_enabled w).
  - exists (set_gc_enabled true w3). split; reflexivity.
  - exists w3. split; [reflexivity|]. discriminate.
Qed.

(** X11: when every call of the callable raises [e], [run_benchmark]
    raises [e] and builds no result, on CPython (from the profiled
    invocation) and on PyPy with at least one warm-up invocation; on PyPy
    the exception leaves [Timer.timeit] with the collector enabled again
    if it was enabled before. *)
Theorem always_raising_callable
  (platform : Platform) (_format : FormatModule) (fuel : nat)
  (benchmark_spec : BenchmarkSpec) (w w1 : World) (test_fun : Callable)
  (e : PyExn) :
  _create_test_fun _format benchmark_spec w = (Ok test_fun, w1) ->
  always_raises e test_fun ->
  _pypy platform = false \/ 1 <= get_warmups benchmark_spec ->
  fst (run_benchmark platform _format fuel benchmark_spec w) = Raise e
  /\ (_pypy platform = true -> gc_enabled w = true ->
      gc_enabled (snd (run_benchmark platform _format fuel benchmark_spec w))
      = true).
Proof.
  intros H1 Hr Hcase. unfold run_benchmark.
  rewrite (bind_run _ _ _ _ _ H1). unfold memory_profiling.
  destruct (_pypy platform) eqn:Hpy.
  - destruct Hcase as [N|Hw]; [discriminate|].
    rewrite (bind_run (ret None) _ w1 w1 None eq_refl).
    assert (G : gc_enabled w1 = gc_enabled w).
    { pose proof (create_test_fun_state _format benchmark_spec w) as Hs.
      cbv zeta in Hs. rewrite H1 in Hs. cbn [snd] in Hs.
      destruct Hs as [-> | ->]; reflexivity. }
    destruct (timeit_always_raises e test_fun benchmark_spec
                (get_warmups benchmark_spec) w1 Hr Hw) as (w2 & Et & Hg).
    assert (Ec : collect_samples fuel benchmark_spec test_fun w1 = (Raise e, w2)).
    { unfold collect_samples. apply bind_Raise. exact Et. }
    rewrite (bind_Raise _ _ _ _ _ Ec). split; [reflexivity|].
    intros _ Hgw. apply Hg. rewrite G. exact Hgw.
  - destruct (Hr (snd (tracemalloc.start (set_gc_enabled false w1))))
      as (w3 & E3).
    pose proof (trace_memory_allocation_raise test_fun w1 w3 e E3) as Et.
    rewrite (bind_Raise _ _ _ _ _ (bind_Raise _ _ _ _ _ Et)).
    split; [reflexivity|]. intros N. discriminate.
Qed.

Lemma malformed_always_raises :
  always_raises (Exception "malformed input") malformed.
Proof. intros w. eexists. reflexivity. Qed.

Lemma always_raising_callable_witness :
  let s := example_spec "buffer" "write" "load_dump" failing_loader
                        "json" true 1 4 in
  _create_test_fun example_format s under_pytest = (Ok malformed, under_pytest)
  /\ fst (run_benchmark pypy example_format 10 s under_pytest)
     = Raise (Exception "malformed input")
  /\ gc_enabled (snd (run_benchmark pypy example_format 10 s under_pytest))
     = true.
Proof.
  intros s.
  assert (E : _create_test_fun example_format s under_pytest
              = (Ok malformed, under_pytest)) by reflexivity.
  split; [exact E|].
  pose proof (always_raising_callable pypy example_format 10 s under_pytest
              under_pytest malformed (Exception "malformed input") E
              malformed_always_raises (or_intror (Z.le_refl 1))) as [H1 H2].
  split; [exact H1|]. exact (H2 eq_refl eq_refl).
Defined.

(** ** The collector after a run that returns *)

(** [Timer.timeit] with the setup of the runner: the collector is left
    enabled if it was enabled before, and as the flag of the specification
    sets it otherwise. *)
Lemma timeit_collector {T} (test_fun : Callable) (benchmark_spec : BenchmarkSpec)
  (timer : M T) (sub : T -> T -> T) (number : Z) (w : World) :
  (forall b, preserves (fun w0 => gc_enabled w0 = b) test_fun) ->
  (forall b, preserves (fun w0 => gc_enabled w0 = b) timer) ->
  fst (timeit.timeit (timeit.mkTimer test_fun (setup_of benchmark_spec) timer sub)
         number w) <> OutOfFuel ->
  gc_enabled (snd (timeit.timeit
                     (timeit.mkTimer test_fun (setup_of benchmark_spec) timer sub)
                     number w))
  = gc_enabled w || negb (py_gc_disabled benchmark_spec).
Proof.
  intros Hf Ht.
  set (t := timeit.mkTimer test_fun (setup_of benchmark_spec) timer sub).
  set (flag := py_gc_disabled benchmark_spec).
  assert (Hin : gc_enabled (snd (timeit.inner t number (set_gc_enabled false w)))
                = negb flag).
  { unfold timeit.inner. cbn [t timeit.setup timeit.timer timeit.stmt timeit.sub].
    assert (Es : setup_of benchmark_spec (set_gc_enabled false w)
                 = (Ok tt, set_gc_enabled (negb flag) w)).
    { unfold setup_of, flag. destruct (py_gc_disabled benchmark_spec); reflexivity. }
    rewrite (bind_run _ _ _ _ _ Es).
    assert (K : preserves (fun w0 => gc_enabled w0 = negb flag)
                  (t0 <- timer ;;
                   timeit.loop (Z.to_nat number) test_fun ;;
                   t1 <- timer ;; ret (sub t1 t0))).
    { apply preserves_bind; [apply Ht|]. intros t0.
      apply preserves_bind; [apply preserves_loop; apply Hf|]. intros _.
      apply preserves_bind; [apply Ht|]. intros t1. apply preserves_ret. }
    apply K. reflexivity. }
  unfold timeit.timeit.
  rewrite (bind_run gc.isenabled _ w w (gc_enabled w) eq_refl).
  rewrite (bind_run gc.disable _ w (set_gc_enabled false w) tt eq_refl).
  unfold try_finally.
  destruct (timeit.inner t number (set_gc_enabled false w)) as [[x|e|] w1];
    cbn [snd] in Hin; destruct (gc_enabled w); cbn; intros N;
    try reflexivity; try exact Hin; contradiction.
Qed.

(** X12: when the loader/dumper does not switch the collector itself, a
    run that returns leaves the collector enabled, except on PyPy when the
    collector was disabled at the call and the specification asks for a
    disabled collector; on PyPy a run with the flag unset leaves it
    enabled even if it was disabled at the call. *)
Theorem collector_after_return
  (platform : Platform) (_format : FormatModule) (fuel : nat)
  (benchmark_spec : BenchmarkSpec) (w w' : World) (r : BenchmarkResult) :
  (forall b, loader_preserves (fun w0 => gc_enabled w0 = b)
                              (get_loader_dumper benchmark_spec)) ->
  run_benchmark platform _format fuel benchmark_spec w = (Ok r, w') ->
  gc_enabled w'
  = negb (_pypy platform) || gc_enabled w
    || negb (py_gc_disabled benchmark_spec).
Proof.
  intros Hld H. apply run_benchmark_Ok in H.
  destruct H as (test_fun & w1 & peak & w2 & b & raw & H1 & H2 & H3 & _).
  assert (Hf : forall g, preserves (fun w0 => gc_enabled w0 = g) test_fun).
  { intros g. refine (created_test_fun_preserves _ _ _ _ _ _ _ (Hld g) H1).
    intros n l w0 H0. exact H0. }
  assert (G1 : gc_enabled w1 = gc_enabled w).
  { pose proof (create_test_fun_state _format benchmark_spec w) as Hs.
    cbv zeta in Hs. rewrite H1 in Hs. cbn [snd] in Hs.
    destruct Hs as [-> | ->]; reflexivity. }
  assert (G2 : gc_enabled w2 = negb (_pypy platform) || gc_enabled w).
  { unfold memory_profiling in H2. destruct (_pypy platform).
    - injection H2 as _ <-. exact G1.
    - apply bind_Ok in H2. destruct H2 as (p & w3 & Htr & E).
      injection E as _ <-. apply trace_memory_allocation_Ok in Htr.
      destruct Htr as (v & w4 & _ & _ & ->). reflexivity. }
  set (h := negb (_pypy platform) || gc_enabled w
            || negb (py_gc_disabled benchmark_spec)).
  assert (Htimeit : forall T (timer : M T) (sub : T -> T -> T),
             (forall g, preserves (fun w0 => gc_enabled w0 = g) timer) ->
             forall n, exits_with (fun w0 => gc_enabled w0 = h)
                         (timeit.timeit
                            (timeit.mkTimer test_fun (setup_of benchmark_spec)
                                            timer sub) n)).
  { intros T timer sub Ht n w0 H0 Hexit.
    rewrite (timeit_collector test_fun benchmark_spec timer sub n w0 Hf Ht Hexit).
    rewrite H0. unfold h.
    destruct (_pypy platform), (gc_enabled w), (py_gc_disabled benchmark_spec);
      reflexivity. }
  apply collect_samples_Ok in H3. cbv zeta in H3.
  destruct H3 as (t & w3 & w4 & Hw & Hc & Hr).
  assert (G3 : gc_enabled w3 = h).
  { pose proof (timeit_collector test_fun benchmark_spec time.perf_counter_ns
                  Z.sub (get_warmups benchmark_spec) w2 Hf
                  (fun g w0 H0 => H0)) as K.
    rewrite Hw in K. cbn [fst snd] in K. rewrite K by discriminate.
    rewrite G2. reflexivity. }
  assert (G4 : gc_enabled w4 = h).
  { assert (K : exits_with (fun w0 => gc_enabled w0 = h)
                  (calibrate fuel test_fun (setup_of benchmark_spec))).
    { unfold calibrate. apply exits_with_bind; [intros w0 H0 _; exact H0|].
      intros [|]; [apply exits_with_ret|].
      apply exits_with_bind; [|intros found; apply exits_with_ret].
      apply exits_with_autorange. apply Htimeit. intros g w0 H0. exact H0. }
    specialize (K w3 G3). rewrite Hc in K. apply K. discriminate. }
  pose proof (exits_with_repeat (fun w0 => gc_enabled w0 = h) _
                (get_iterations benchmark_spec) b
                (Htimeit Z time.perf_counter_ns Z.sub (fun g w0 H0 => H0))
                w4 G4) as K.
  rewrite Hr in K. apply K. discriminate.
Qed.

Lemma steady_loader_preserves_collector (d : Z) (a : N) (b : bool) :
  loader_preserves (fun w0 => gc_enabled w0 = b) (steady_loader d a).
Proof.
  assert (H : preserves (fun w0 => gc_enabled w0 = b) (steady d a))
    by (intros [g [|] c p t e f n o] H; exact H).
  repeat split; intros; exact H.
Qed.

(** On PyPy, called with the collector disabled and the flag set, the run
    returns with the collector still disabled. *)
Lemma collector_after_return_witness :
  let s := example_spec "buffer" "write" "load_dump" (steady_loader 300 64)
                        "json" true 1 2 in
  let r := BenchmarkResult__init__
             [300; 300]%Q
             [7158278826666667 # 2147483648; 7158278826666667 # 2147483648]%Q
             None in
  run_benchmark pypy example_format 10 s (set_gc_enabled false under_pytest)
  = (Ok r, set_clock_ns 1900 (set_gc_enabled false under_pytest))
  /\ gc_enabled (set_clock_ns 1900 (set_gc_enabled false under_pytest)) = false.
Proof.
  intros s r.
  assert (E : run_benchmark pypy example_format 10 s
                (set_gc_enabled false under_pytest)
              = (Ok r, set_clock_ns 1900 (set_gc_enabled false under_pytest)))
    by (vm_compute; reflexivity).
  split; [exact E|].
  exact (collector_after_return pypy example_format 10 s _ _ r
           (steady_loader_preserves_collector 300 64) E).
Defined.
